(** * DNS spoofing detector: a shallow embedding of [DNSSpoofDetector]

    The development follows the class [DNSSpoofDetector] of
    [DNS_Spoofing_and_Detection_Tool.ipynb] method by method.

    - The detector object ([self.cache], [self.suspicious_responses],
      [self.stop_detecting]) is a record; the cache is a finite map.
    - Methods are computations in a state-and-exception monad [M]: they
      thread the detector together with the console, and either return a
      value or raise a Python exception.
    - Every [print] becomes one structured console message, one constructor
      per [print] statement, carrying the interpolated values.
    - The external collaborators (trusted resolver, WHOIS client, RDAP
      client) are an oracle [World]; each call to them is recorded on the
      console as well, so that "which lookups were made" is observable. *)

From Stdlib Require Import Strings.Byte NArith.
From stdpp Require Import base option list gmap strings relations.

Open Scope string_scope.
Open Scope list_scope.

(** ** Python values *)

(** What scapy hands back as [rdata] is a Python [str] for address records
    and [bytes] for name-valued and opaque record data.  A [str] is held as its UTF-8
    encoding.  [==] between a [str] and [bytes] is always false, which is
    what constructor equality gives. *)
Inductive PyVal : Type :=
| PyStr (s : string)
| PyBytes (b : list byte).

#[global] Instance byte_eq_dec : EqDecision byte := Byte.byte_eq_dec.

#[global] Instance PyVal_eq_dec : EqDecision PyVal.
Proof. solve_decision. Defined.

(** Truth value of an object in a condition: empty [str] and empty [bytes]
    are false. *)
Definition truthy (v : PyVal) : bool :=
  match v with
  | PyStr "" => false
  | PyStr _ => true
  | PyBytes [] => false
  | PyBytes _ => true
  end.

(** ** Exceptions

    The type covers the [Exception] hierarchy, which is what the lookups and
    the packet accessors raise. *)
Inductive Exn : Type :=
| NXDOMAIN                        (* dns.resolver.NXDOMAIN *)
| IndexError                      (* packet[cls] when the layer is missing *)
| UnicodeDecodeError              (* bytes.decode() on invalid UTF-8 *)
| TypeError                       (* str.join over a non-iterable *)
| PermissionError                 (* opening the capture without privilege *)
| OtherException (name : string). (* any other subclass of Exception *)

#[global] Instance Exn_eq_dec : EqDecision Exn.
Proof. solve_decision. Defined.

Inductive Outcome (A : Type) : Type :=
| Returned (a : A)
| Raised (e : Exn).
Arguments Returned {A} a.
Arguments Raised {A} e.

(** ** Decoding [qname]: [bytes.decode()], strict UTF-8 *)

Definition in_range (lo hi : N) (b : byte) : bool :=
  ((lo <=? Byte.to_N b) && (Byte.to_N b <=? hi))%N.

Definition utf8_tail : byte -> bool := in_range 0x80 0xBF.

Fixpoint utf8_valid (bs : list byte) : bool :=
  match bs with
  | [] => true
  | b0 :: r0 =>
      if in_range 0x00 0x7F b0 then utf8_valid r0
      else if in_range 0xC2 0xDF b0 then
        match r0 with
        | b1 :: r1 => utf8_tail b1 && utf8_valid r1
        | _ => false
        end
      else if in_range 0xE0 0xEF b0 then
        match r0 with
        | b1 :: b2 :: r2 =>
            (if in_range 0xE0 0xE0 b0 then in_range 0xA0 0xBF b1
             else if in_range 0xED 0xED b0 then in_range 0x80 0x9F b1
             else utf8_tail b1)
            && utf8_tail b2 && utf8_valid r2
        | _ => false
        end
      else if in_range 0xF0 0xF4 b0 then
        match r0 with
        | b1 :: b2 :: b3 :: r3 =>
            (if in_range 0xF0 0xF0 b0 then in_range 0x90 0xBF b1
             else if in_range 0xF4 0xF4 b0 then in_range 0x80 0x8F b1
             else utf8_tail b1)
            && utf8_tail b2 && utf8_tail b3 && utf8_valid r3
        | _ => false
        end
      else false
  end.

Definition bytes_decode (bs : list byte) : Outcome string :=
  if utf8_valid bs then Returned (String.string_of_list_byte bs)
  else Raised UnicodeDecodeError.

(** ** Captured packets

    Only the layers the detector reads are kept: the question records and
    the resource records, each in layer order. *)
Record DNSQR : Type := { qname : list byte }.
Record DNSRR : Type := { rdata : PyVal }.
Record Packet : Type := { dnsqr : list DNSQR; dnsrr : list DNSRR }.

(** ** Results of the external lookups *)

(** [whois.whois(domain)]: attributes that are not known read as [None]. *)
Record WhoisEntry : Type := {
  registrar : option string;
  name_servers : option (list string)
}.

(** Which of the two address lookups of a trace is being made. *)
Inductive Subject : Type := RealIP | SpoofedIP.

#[global] Instance Subject_eq_dec : EqDecision Subject.
Proof. solve_decision. Defined.

(** The answers of the outside world to one verification task. *)
Record World : Type := {
  (* self.resolver.resolve(domain, 'A')[0].to_text() *)
  resolve_A : string -> Outcome string;
  (* whois.whois(domain) *)
  whois : string -> Outcome WhoisEntry;
  (* IPWhois(ip).lookup_rdap(), a dict *)
  lookup_rdap : Subject -> PyVal -> Outcome (gmap string string)
}.

(** ** Console *)

Inductive Msg : Type :=
(* start_detecting *)
| StartingDetection (iface : string)
| PermissionDenied
| AnErrorOccurred (e : Exn)
(* dns_detect *)
| PotentialSpoofing (qname : string)
| CachedIP (ip : PyVal)
| ReceivedIP (ip : PyVal)
(* verify_dns *)
| ConfirmedSpoofing (domain : string)
| RealIPLine (ip : string)
| SpoofedIPLine (ip : PyVal)
| DoesNotExist (domain : string)
| ErrorResolving (domain : string) (e : Exn)
(* trace_actual_dns *)
| TracingActualDNS (domain : string)
| DomainRegistrar (r : option string)
| NameServers (joined : string)
| WhoisUnavailable (e : Exn)
| Asn (who : Subject) (asn : option string)
| AsnDescription (who : Subject) (descr : option string)
| IPInfoUnavailable (who : Subject) (e : Exn)
(* verify_suspicious_responses *)
| VerifyingBanner.

Inductive Lookup : Type :=
| Resolve (domain : string)
| Whois (domain : string)
| Rdap (ip : PyVal).

Inductive Event : Type :=
| Printed (m : Msg)
| Called (c : Lookup).

#[global] Instance Msg_eq_dec : EqDecision Msg.
Proof. solve_decision. Defined.
#[global] Instance Lookup_eq_dec : EqDecision Lookup.
Proof. solve_decision. Defined.
#[global] Instance Event_eq_dec : EqDecision Event.
Proof. solve_decision. Defined.

(** ** The detector object and the session *)

Definition Suspicion : Type := string * PyVal * PyVal.

Record Detector : Type := {
  interface : string;
  cache : gmap string PyVal;
  suspicious_responses : list Suspicion;
  stop_detecting : bool;
  nameservers : list string
}.

Record Session : Type := { self : Detector; console : list Event }.

(** [DNSSpoofDetector.__init__] *)
Definition init (iface : string) : Detector :=
  {| interface := iface;
     cache := ∅;
     suspicious_responses := [];
     stop_detecting := false;
     nameservers := ["8.8.8.8"; "8.8.4.4"] |}.

Definition fresh (iface : string) : Session :=
  {| self := init iface; console := [] |}.

(** ** The monad *)

Definition M (A : Type) : Type := Session -> Outcome A * Session.

#[global] Instance M_ret : MRet M := fun A a s => (Returned a, s).

#[global] Instance M_bind : MBind M := fun A B k m s =>
  match m s with
  | (Returned a, s') => k a s'
  | (Raised e, s') => (Raised e, s')
  end.

Definition raise {A} (e : Exn) : M A := fun s => (Raised e, s).

Definition lift {A} (o : Outcome A) : M A := fun s => (o, s).

(** [try: body except Exception as e: handler e]; what the body did to the
    session before raising stays done. *)
Definition try_except {A} (body : M A) (handler : Exn -> M A) : M A :=
  fun s =>
    match body s with
    | (Returned a, s') => (Returned a, s')
    | (Raised e, s') => handler e s'
    end.

Definition get_self : M Detector := fun s => (Returned (self s), s).

Definition emit (ev : Event) : M unit := fun s =>
  (Returned tt, {| self := self s; console := console s ++ [ev] |}).

Definition print (m : Msg) : M unit := emit (Printed m).

(** A call to an external service: the call is recorded, then the service
    answers or raises. *)
Definition call {A} (c : Lookup) (answer : Outcome A) : M A :=
  emit (Called c);; lift answer.

(** [self.cache[k] = v] *)
Definition cache_setitem (k : string) (v : PyVal) : M unit := fun s =>
  let d := self s in
  (Returned tt,
   {| self := {| interface := interface d;
                 cache := <[k := v]> (cache d);
                 suspicious_responses := suspicious_responses d;
                 stop_detecting := stop_detecting d;
                 nameservers := nameservers d |};
      console := console s |}).

(** [self.suspicious_responses.append(r)] *)
Definition suspicious_append (r : Suspicion) : M unit := fun s =>
  let d := self s in
  (Returned tt,
   {| self := {| interface := interface d;
                 cache := cache d;
                 suspicious_responses := suspicious_responses d ++ [r];
                 stop_detecting := stop_detecting d;
                 nameservers := nameservers d |};
      console := console s |}).

(** [packet.haslayer(cls)] and [packet[cls]] on a list of layers. *)
Definition haslayer {L} (layers : list L) : bool :=
  match layers with [] => false | _ :: _ => true end.

Definition getlayer {L} (layers : list L) : M L :=
  match layers with
  | [] => raise IndexError
  | l :: _ => mret l
  end.

(** ** [dns_detect] *)

Definition dns_detect (packet : Packet) : M unit :=
  if haslayer (dnsrr packet) then
    qr ← getlayer (dnsqr packet);
    name ← lift (bytes_decode (qname qr));
    rr ← getlayer (dnsrr packet);
    let received := rdata rr in
    d ← get_self;
    match cache d !! name with
    | Some cached =>
        if decide (cached ≠ received) then
          print (PotentialSpoofing name);;
          print (CachedIP cached);;
          print (ReceivedIP received);;
          suspicious_append (name, cached, received)
        else mret tt
    | None => cache_setitem name received
    end
  else mret tt.

(** ** [check_stop], [stop_detection] and the capture loop *)

Definition check_stop (packet : Packet) : M bool :=
  d ← get_self; mret (stop_detecting d).

Definition stop_detection : M unit := fun s =>
  let d := self s in
  (Returned tt,
   {| self := {| interface := interface d;
                 cache := cache d;
                 suspicious_responses := suspicious_responses d;
                 stop_detecting := true;
                 nameservers := nameservers d |};
      console := console s |}).

(** [scapy.sniff(prn=self.dns_detect, stop_filter=self.check_stop)] over the
    packets the capture source delivers: the callback runs on each packet,
    then the stop predicate is asked.  An exception of the callback is let
    through to the caller, as scapy does up to 2.5; later versions catch it
    inside [sniff]. *)
Fixpoint sniff (packets : list Packet) : M unit :=
  match packets with
  | [] => mret tt
  | p :: rest =>
      dns_detect p;;
      stop ← check_stop p;
      if (stop : bool) then mret tt else sniff rest
  end.

(** ** [start_detecting]

    [source] is what the capture facility does when asked to sniff on the
    interface: it raises (a [PermissionError], say) or delivers packets.
    [KeyboardInterrupt] is outside the [Exception] hierarchy and nothing in
    this embedding raises it, so its handler has no counterpart here. *)
Definition start_detecting (source : Outcome (list Packet)) : M unit :=
  try_except
    (d ← get_self;
     print (StartingDetection (interface d));;
     packets ← lift source;
     sniff packets)
    (fun e =>
       match e with
       | PermissionError => print PermissionDenied
       | _ => print (AnErrorOccurred e)
       end).

(** ** [trace_actual_dns] *)

(** [sep.join(x)]: a [TypeError] when [x] is [None]. *)
Definition join (sep : string) (x : option (list string)) : M string :=
  match x with
  | None => raise TypeError
  | Some l => mret (String.concat sep l)
  end.

Definition trace_actual_dns (w : World) (domain : string)
    (real_ip spoofed_ip : PyVal) : M unit :=
  print (TracingActualDNS domain);;
  (* WHOIS information for the domain *)
  try_except
    (domain_info ← call (Whois domain) (whois w domain);
     print (DomainRegistrar (registrar domain_info));;
     servers ← join ", " (name_servers domain_info);
     print (NameServers servers))
    (fun e => print (WhoisUnavailable e));;
  (* information about the real IP *)
  try_except
    (ip_info ← call (Rdap real_ip) (lookup_rdap w RealIP real_ip);
     print (Asn RealIP (ip_info !! "asn"));;
     print (AsnDescription RealIP (ip_info !! "asn_description")))
    (fun e => print (IPInfoUnavailable RealIP e));;
  (* information about the spoofed IP *)
  try_except
    (spoofed_ip_info ← call (Rdap spoofed_ip) (lookup_rdap w SpoofedIP spoofed_ip);
     print (Asn SpoofedIP (spoofed_ip_info !! "asn"));;
     print (AsnDescription SpoofedIP (spoofed_ip_info !! "asn_description")))
    (fun e => print (IPInfoUnavailable SpoofedIP e)).

(** ** [verify_dns] *)

Definition verify_dns (w : World) (domain : string) : M (option string) :=
  try_except
    (real_ip ← call (Resolve domain) (resolve_A w domain);
     d ← get_self;
     (* cached_ip = self.cache.get(domain); None is false in the test *)
     match cache d !! domain with
     | Some cached_ip =>
         if truthy cached_ip && bool_decide (PyStr real_ip ≠ cached_ip) then
           print (ConfirmedSpoofing domain);;
           print (RealIPLine real_ip);;
           print (SpoofedIPLine cached_ip);;
           trace_actual_dns w domain (PyStr real_ip) cached_ip
         else mret tt
     | None => mret tt
     end;;
     mret (Some real_ip))
    (fun e =>
       match e with
       | NXDOMAIN => print (DoesNotExist domain);; mret None
       | _ => print (ErrorResolving domain e);; mret None
       end).

(** ** [verify_suspicious_responses]

    The worker pool is a transition system.  A task is a submitted call
    [self.verify_dns(domain)], numbered by its position in the log; task
    [i] gets its answers from [worlds i].  A queued task may start while
    fewer than [max_workers] tasks are running; a running task finishes by
    running [verify_dns] on the shared session, and its outcome (a value or
    the exception it raised) is kept in its future. *)

Definition max_workers : nat := 5.

Definition Task : Type := nat * string.
Definition Future : Type := Task * Outcome (option string).

Record Pool : Type := {
  queued : list Task;
  running : list Task;
  completed : list Future;
  session : Session
}.

(** [[executor.submit(self.verify_dns, domain)
      for domain, _, _ in self.suspicious_responses]] *)
Definition submissions (d : Detector) : list Task :=
  imap (fun i '(domain, _, _) => (i, domain)) (suspicious_responses d).

Definition dispatch (s : Session) : Pool :=
  {| queued := submissions (self s); running := []; completed := []; session := s |}.

Inductive pool_step (worlds : nat -> World) : Pool -> Pool -> Prop :=
| step_start t q r c s :
    length r < max_workers ->
    pool_step worlds
      {| queued := t :: q; running := r; completed := c; session := s |}
      {| queued := q; running := r ++ [t]; completed := c; session := s |}
| step_finish t q r1 r2 c s :
    pool_step worlds
      {| queued := q; running := r1 ++ t :: r2; completed := c; session := s |}
      {| queued := q; running := r1 ++ r2;
         completed := c ++ [(t, (verify_dns (worlds t.1) t.2 s).1)];
         session := (verify_dns (worlds t.1) t.2 s).2 |}.

(** [concurrent.futures.wait(futures)] returns, and the [with] block is
    left, when no task is queued or running. *)
Definition all_done (p : Pool) : Prop := queued p = [] /\ running p = [].

Definition verify_suspicious_responses (worlds : nat -> World)
    (s : Session) (p : Pool) : Prop :=
  rtc (pool_step worlds) (dispatch (print VerifyingBanner s).2) p /\ all_done p.

(** The schedule in which the tasks run one after the other, in the order
    of submission. *)
Fixpoint one_by_one (worlds : nat -> World) (q : list Task)
    (c : list Future) (s : Session) : Pool :=
  match q with
  | [] => {| queued := []; running := []; completed := c; session := s |}
  | t :: q' =>
      one_by_one worlds q'
        (c ++ [(t, (verify_dns (worlds t.1) t.2 s).1)])
        (verify_dns (worlds t.1) t.2 s).2
  end.

Definition verify_one_by_one (worlds : nat -> World) (s : Session) : Pool :=
  let s1 := (print VerifyingBanner s).2 in
  one_by_one worlds (submissions (self s1)) [] s1.

(** ** Vocabulary of the properties *)

(** The response record a packet carries, as [dns_detect] reads it: the
    decoded name of the first question and the data of the first resource
    record.  [None] for a packet the detector skips or fails on. *)
Definition record_of (p : Packet) : option (string * PyVal) :=
  match dnsrr p, dnsqr p with
  | rr :: _, qr :: _ =>
      match bytes_decode (qname qr) with
      | Returned name => Some (name, rdata rr)
      | Raised _ => None
      end
  | _, _ => None
  end.

Definition is_response (p : Packet) : Prop := is_Some (record_of p).

(** The session a capture over [packets] leaves behind, starting from a
    newly constructed detector. *)
Definition captured (iface : string) (packets : list Packet) : Session :=
  (sniff packets (fresh iface)).2.

(** The address carried by the first record for [name]. *)
Fixpoint first_answer (name : string) (packets : list Packet) : option PyVal :=
  match packets with
  | [] => None
  | p :: rest =>
      match record_of p with
      | Some (n, a) => if decide (n = name) then Some a else first_answer name rest
      | None => first_answer name rest
      end
  end.

(** What a computation adds to the console. *)
Definition emitted {A} (m : M A) (s : Session) : list Event :=
  drop (length (console s)) (console (m s).2).

(** The external lookups among some events, in order. *)
Definition calls (evs : list Event) : list Lookup :=
  omap (fun ev => match ev with Called c => Some c | Printed _ => None end) evs.

(** The value a verification task leaves in its future. *)
Definition verdict (w : World) (domain : string) : Outcome (option string) :=
  match resolve_A w domain with
  | Returned ip => Returned (Some ip)
  | Raised _ => Returned None
  end.

(** What the events of one attribution trace, after its heading line, must
    look like: the three lookups are made, a failed lookup is reported as
    such, and a lookup that succeeded has its fields printed. *)
Definition attribution_report (w : World) (domain : string)
    (real_ip spoofed_ip : PyVal) (evs : list Event) : Prop :=
  calls evs = [Whois domain; Rdap real_ip; Rdap spoofed_ip]
  /\ (forall e, whois w domain = Raised e -> Printed (WhoisUnavailable e) ∈ evs)
  /\ (forall e, lookup_rdap w RealIP real_ip = Raised e ->
        Printed (IPInfoUnavailable RealIP e) ∈ evs)
  /\ (forall e, lookup_rdap w SpoofedIP spoofed_ip = Raised e ->
        Printed (IPInfoUnavailable SpoofedIP e) ∈ evs)
  /\ (forall info, whois w domain = Returned info ->
        Printed (DomainRegistrar (registrar info)) ∈ evs)
  /\ (forall info servers, whois w domain = Returned info ->
        name_servers info = Some servers ->
        Printed (NameServers (String.concat ", " servers)) ∈ evs)
  /\ (forall info, lookup_rdap w RealIP real_ip = Returned info ->
        Printed (Asn RealIP (info !! "asn")) ∈ evs
        /\ Printed (AsnDescription RealIP (info !! "asn_description")) ∈ evs)
  /\ (forall info, lookup_rdap w SpoofedIP spoofed_ip = Returned info ->
        Printed (Asn SpoofedIP (info !! "asn")) ∈ evs
        /\ Printed (AsnDescription SpoofedIP (info !! "asn_description")) ∈ evs).

(** Every record of the log quotes the address the cache holds for its name. *)
Definition log_quotes_cache (s : Session) : Prop :=
  forall n c o, (n, c, o) ∈ suspicious_responses (self s) -> cache (self s) !! n = Some c.

(** What holds of the pool from the dispatch in session [s0] on: at most
    [max_workers] tasks run, no task is lost or invented, the detector is the
    one of [s0], and every future holds its task's verdict. *)
Definition pool_inv (worlds : nat -> World) (s0 : Session) (p : Pool) : Prop :=
  length (running p) <= max_workers
  /\ queued p ++ running p ++ (completed p).*1 ≡ₚ submissions (self s0)
  /\ self (session p) = self s0
  /\ Forall (fun f : Future => f.2 = verdict (worlds f.1.1) f.1.2) (completed p).

(** ** Sample inputs *)

Definition response (name : string) (ip : PyVal) : Packet :=
  {| dnsqr := [ {| qname := String.list_byte_of_string name |} ];
     dnsrr := [ {| rdata := ip |} ] |}.

Definition query (name : string) : Packet :=
  {| dnsqr := [ {| qname := String.list_byte_of_string name |} ]; dnsrr := [] |}.

Definition foo : string := "foo.example.".
Definition bar : string := "bar.example.".

(** Scenario 2 of the specification. *)
Definition scenario2 : list Packet :=
  [response foo (PyStr "1.1.1.1"); response foo (PyStr "2.2.2.2")].

(** A first answer with empty data, then an address. *)
Definition empty_then_address : list Packet :=
  [response foo (PyBytes []); response foo (PyStr "2.2.2.2")].

(** The same name diverging twice. *)
Definition twice_diverging : list Packet :=
  [response foo (PyStr "1.1.1.1"); response foo (PyStr "2.2.2.2");
   response foo (PyStr "2.2.2.2")].

(** Two suspected names. *)
Definition two_names : list Packet :=
  [response foo (PyStr "1.1.1.1"); response bar (PyStr "4.4.4.4");
   response foo (PyStr "2.2.2.2"); response bar (PyStr "5.5.5.5")].

(** A world in which every name resolves to [ip] and every attribution
    lookup succeeds. *)
Definition resolving_to (ip : string) : World :=
  {| resolve_A := fun _ => Returned ip;
     whois := fun _ =>
       Returned {| registrar := Some "Example Registrar";
                   name_servers := Some ["ns1.example."; "ns2.example."] |};
     lookup_rdap := fun _ _ =>
       Returned (<["asn" := "64500"]> (<["asn_description" := "EXAMPLE-AS"]> ∅)) |}.

(** A world in which the resolver fails with [e] and the three attribution
    lookups fail too. *)
Definition failing_with (e : Exn) : World :=
  {| resolve_A := fun _ => Raised e;
     whois := fun _ => Raised (OtherException "PywhoisError");
     lookup_rdap := fun _ _ => Raised (OtherException "HTTPLookupError") |}.

(** A registrar entry without name servers: [join] raises after the
    registrar line has been printed. *)
Definition no_name_servers : World :=
  {| resolve_A := fun _ => Returned "3.3.3.3";
     whois := fun _ =>
       Returned {| registrar := Some "Example Registrar"; name_servers := None |};
     lookup_rdap := fun _ _ => Returned ∅ |}.

(** [foo] does not exist, every other name resolves. *)
Definition foo_missing : World :=
  {| resolve_A := fun d => if decide (d = foo) then Raised NXDOMAIN else Returned "9.9.9.9";
     whois := fun _ => Raised (OtherException "PywhoisError");
     lookup_rdap := fun _ _ => Raised (OtherException "HTTPLookupError") |}.

(** ** Further vocabulary *)

(** The names the trusted resolver was asked for among some events. *)
Definition resolutions (evs : list Event) : list string :=
  omap (fun ev => match ev with Called (Resolve d) => Some d | _ => None end) evs.

(** The three lines [dns_detect] prints for a suspicion. *)
Definition report_lines (r : Suspicion) : list Event :=
  [Printed (PotentialSpoofing r.1.1); Printed (CachedIP r.1.2); Printed (ReceivedIP r.2)].

(** A name server record cached first: the data is a name, held as bytes. *)
Definition alias_then_address : list Packet :=
  [response foo (PyBytes (String.list_byte_of_string "cdn.example."));
   response foo (PyStr "2.2.2.2")].

(** What one attribution trace prints for the registrar lookup, given what
    the lookup did. *)
Definition whois_report (domain : string) (answer : Outcome WhoisEntry) : list Event :=
  Called (Whois domain) ::
  match answer with
  | Returned info =>
      Printed (DomainRegistrar (registrar info)) ::
      match name_servers info with
      | Some servers => [Printed (NameServers (String.concat ", " servers))]
      | None => [Printed (WhoisUnavailable TypeError)]
      end
  | Raised e => [Printed (WhoisUnavailable e)]
  end.

(** What it prints for an address lookup. *)
Definition rdap_report (who : Subject) (ip : PyVal)
    (answer : Outcome (gmap string string)) : list Event :=
  Called (Rdap ip) ::
  match answer with
  | Returned info =>
      [Printed (Asn who (info !! "asn"));
       Printed (AsnDescription who (info !! "asn_description"))]
  | Raised e => [Printed (IPInfoUnavailable who e)]
  end.

(** * Properties *)

(** ** Unfolding the monad *)

Ltac unfold_monad :=
  unfold call, print, join, check_stop, getlayer in *;
  unfold try_except, emit, lift, raise, get_self, cache_setitem,
    suspicious_append, stop_detection, mbind, M_bind, mret, M_ret in *.

Ltac flatten_console :=
  simpl; rewrite <- ?app_assoc; simpl.

Lemma bind_run {A B} (m : M A) (k : A -> M B) (s : Session) :
  (m ≫= k) s =
  match m s with
  | (Returned a, s') => k a s'
  | (Raised e, s') => (Raised e, s')
  end.
Proof. reflexivity. Qed.

Lemma emitted_app {A} (m : M A) (s : Session) (evs : list Event) :
  console (m s).2 = console s ++ evs -> emitted m s = evs.
Proof. intros E. unfold emitted. rewrite E. apply drop_app_length. Qed.

(** ** One packet *)

Section OnePacket.
Variables (p : Packet) (s : Session).

Lemma dns_detect_no_rr : dnsrr p = [] -> dns_detect p s = (Returned tt, s).
Proof. intros E. unfold dns_detect. by rewrite E. Qed.

Lemma dns_detect_skipped : record_of p = None -> (dns_detect p s).2 = s.
Proof.
  unfold record_of, dns_detect. destruct p as [qs rs]; simpl.
  destruct rs as [|rr rs']; [done|]. destruct qs as [|qr qs']; [done|].
  unfold_monad; simpl. by destruct (bytes_decode (qname qr)).
Qed.

Lemma dns_detect_record (n : string) (a : PyVal) :
  record_of p = Some (n, a) ->
  (dns_detect p s).1 = Returned tt
  /\ cache (self (dns_detect p s).2)
     = match cache (self s) !! n with
       | Some _ => cache (self s)
       | None => <[n := a]> (cache (self s))
       end
  /\ suspicious_responses (self (dns_detect p s).2)
     = suspicious_responses (self s) ++
       match cache (self s) !! n with
       | Some c => if decide (c ≠ a) then [(n, c, a)] else []
       | None => []
       end.
Proof.
  unfold record_of, dns_detect. destruct p as [qs rs]; simpl.
  destruct rs as [|rr rs']; [done|]. destruct qs as [|qr qs']; [done|].
  unfold_monad; simpl. destruct (bytes_decode (qname qr)) as [m|]; [|done].
  intros [= -> ->]. destruct (cache (self s) !! n) as [c|]; simpl.
  - destruct (decide (c ≠ a)); simpl; repeat split; by rewrite ?app_nil_r.
  - repeat split; by rewrite ?app_nil_r.
Qed.

Lemma dns_detect_stop : stop_detecting (self (dns_detect p s).2) = stop_detecting (self s).
Proof.
  unfold dns_detect. destruct p as [qs rs]; simpl.
  destruct rs as [|rr rs']; [done|]. destruct qs as [|qr qs']; [done|].
  unfold_monad; simpl. destruct (bytes_decode (qname qr)) as [m|]; [|done].
  destruct (cache (self s) !! m) as [c|]; simpl; [|done].
  by destruct (decide (c ≠ rdata rr)).
Qed.
End OnePacket.

(** ** The capture loop *)

Lemma sniff_cons (p : Packet) (ps : list Packet) (s : Session) :
  sniff (p :: ps) s =
  match dns_detect p s with
  | (Returned _, s') =>
      if stop_detecting (self s') then (Returned tt, s') else sniff ps s'
  | (Raised e, s') => (Raised e, s')
  end.
Proof.
  simpl. rewrite bind_run. destruct (dns_detect p s) as [[[]|e] s']; [|done].
  unfold_monad. simpl. by destruct (stop_detecting (self s')).
Qed.

(** Whatever every call of [dns_detect] preserves, the capture preserves. *)
Lemma sniff_preserves (P : Session -> Prop) :
  (forall p s, P s -> P (dns_detect p s).2) ->
  forall ps s, P s -> P (sniff ps s).2.
Proof.
  intros HP ps. induction ps as [|p ps IH]; intros s Hs; [done|].
  rewrite sniff_cons. specialize (HP p s Hs).
  destruct (dns_detect p s) as [[[]|e] s']; simpl in *; [|done].
  destruct (stop_detecting (self s')); [done|]. by apply IH.
Qed.

(** While the stop flag is down, a capture over response records goes
    through all of them, one call of [dns_detect] after the other. *)
Lemma sniff_responses (ps : list Packet) (s : Session) :
  Forall is_response ps -> stop_detecting (self s) = false ->
  (sniff ps s).1 = Returned tt /\ stop_detecting (self (sniff ps s).2) = false.
Proof.
  intros Hps. revert s. induction Hps as [|p ps [[n a] Hp] _ IH]; intros s Hs; [done|].
  rewrite sniff_cons.
  pose proof (dns_detect_record p s n a Hp) as (Hr & _).
  pose proof (dns_detect_stop p s) as Hstop.
  destruct (dns_detect p s) as [[[]|e] s']; simpl in *; [|done].
  rewrite Hstop, Hs. apply IH. congruence.
Qed.

Lemma sniff_snoc (ps : list Packet) (p : Packet) (s : Session) :
  Forall is_response ps -> stop_detecting (self s) = false ->
  (sniff (ps ++ [p]) s).2 = (dns_detect p (sniff ps s).2).2.
Proof.
  intros Hps. revert s. induction Hps as [|q ps [[n a] Hq] _ IH]; intros s Hs.
  - simpl app. rewrite sniff_cons. change (sniff [] s).2 with s.
    pose proof (dns_detect_stop p s) as Hstop.
    destruct (dns_detect p s) as [[[]|e] s']; simpl in *; [|done].
    by destruct (stop_detecting (self s')).
  - rewrite <- app_comm_cons, !sniff_cons.
    pose proof (dns_detect_record q s n a Hq) as (Hr & _).
    pose proof (dns_detect_stop q s) as Hstop.
    destruct (dns_detect q s) as [[[]|e] s']; simpl in *; [|done].
    rewrite Hstop, Hs. apply IH. congruence.
Qed.

Lemma captured_snoc (iface : string) (ps : list Packet) (p : Packet) :
  Forall is_response ps ->
  captured iface (ps ++ [p]) = (dns_detect p (captured iface ps)).2.
Proof. intros Hps. unfold captured. by apply sniff_snoc. Qed.

(** What is on the console has no influence on what becomes of the
    detector, so the detector [start_detecting] leaves behind is the one of
    [captured]. *)
Lemma dns_detect_console_irrelevant (p : Packet) (d : Detector) (c1 c2 : list Event) :
  (dns_detect p {| self := d; console := c1 |}).1
  = (dns_detect p {| self := d; console := c2 |}).1
  /\ self (dns_detect p {| self := d; console := c1 |}).2
     = self (dns_detect p {| self := d; console := c2 |}).2.
Proof.
  unfold dns_detect. destruct p as [qs rs]; simpl.
  destruct rs as [|rr rs']; [done|]. destruct qs as [|qr qs']; [done|].
  unfold_monad; simpl. destruct (bytes_decode (qname qr)) as [m|]; [|done].
  destruct (cache d !! m) as [c|]; simpl; [|done].
  by destruct (decide (c ≠ rdata rr)).
Qed.

Lemma sniff_console_irrelevant (ps : list Packet) (d : Detector) (c1 c2 : list Event) :
  (sniff ps {| self := d; console := c1 |}).1
  = (sniff ps {| self := d; console := c2 |}).1
  /\ self (sniff ps {| self := d; console := c1 |}).2
     = self (sniff ps {| self := d; console := c2 |}).2.
Proof.
  revert d c1 c2. induction ps as [|p ps IH]; intros d c1 c2; [done|].
  rewrite !sniff_cons.
  destruct (dns_detect_console_irrelevant p d c1 c2) as [Ho Hs].
  destruct (dns_detect p {| self := d; console := c1 |}) as [o1 [d1 k1]].
  destruct (dns_detect p {| self := d; console := c2 |}) as [o2 [d2 k2]].
  simpl in *. subst o2 d2. destruct o1 as [[]|e]; [|done]. simpl.
  destruct (stop_detecting d1); [done|]. apply IH.
Qed.

Lemma start_detecting_detector (iface : string) (ps : list Packet) :
  self (start_detecting (Returned ps) (fresh iface)).2 = self (captured iface ps).
Proof.
  unfold captured, start_detecting, fresh. unfold_monad. simpl.
  destruct (sniff_console_irrelevant ps (init iface)
              [Printed (StartingDetection iface)] []) as [_ <-].
  destruct (sniff ps _) as [[[]|e] s']; [done|]. by destruct e.
Qed.

(** ** The cache and the log during a capture *)

Lemma dns_detect_keeps_entry (p : Packet) (s : Session) (n : string) (c : PyVal) :
  cache (self s) !! n = Some c -> cache (self (dns_detect p s).2) !! n = Some c.
Proof.
  intros Hc. destruct (record_of p) as [[m a]|] eqn:Hp.
  - pose proof (dns_detect_record p s m a Hp) as (_ & -> & _).
    destruct (cache (self s) !! m) eqn:Hm; [done|].
    rewrite lookup_insert_ne; [done|]. intros ->. congruence.
  - by rewrite dns_detect_skipped.
Qed.

Lemma sniff_keeps_entry (ps : list Packet) (s : Session) (n : string) (c : PyVal) :
  cache (self s) !! n = Some c -> cache (self (sniff ps s).2) !! n = Some c.
Proof.
  revert ps s. apply (sniff_preserves (fun s => cache (self s) !! n = Some c)).
  intros p s. apply dns_detect_keeps_entry.
Qed.

Lemma dns_detect_log_quotes_cache (p : Packet) (s : Session) :
  log_quotes_cache s -> log_quotes_cache (dns_detect p s).2.
Proof.
  intros Hs. destruct (record_of p) as [[m a]|] eqn:Hp.
  - intros n c o. pose proof (dns_detect_record p s m a Hp) as (_ & _ & ->).
    rewrite elem_of_app. intros [Hold|Hnew].
    + apply dns_detect_keeps_entry. by apply (Hs n c o).
    + apply dns_detect_keeps_entry.
      destruct (cache (self s) !! m) as [c0|] eqn:Hm; [|by apply elem_of_nil in Hnew].
      destruct (decide (c0 ≠ a)); [|by apply elem_of_nil in Hnew].
      apply list_elem_of_singleton in Hnew. congruence.
  - by rewrite dns_detect_skipped.
Qed.

Lemma captured_log_quotes_cache (iface : string) (ps : list Packet) :
  log_quotes_cache (captured iface ps).
Proof.
  unfold captured. apply sniff_preserves.
  - apply dns_detect_log_quotes_cache.
  - intros n c o H. by apply elem_of_nil in H.
Qed.

Lemma sniff_cache_lookup (ps : list Packet) (s : Session) (n : string) :
  Forall is_response ps -> stop_detecting (self s) = false ->
  cache (self (sniff ps s).2) !! n =
  match cache (self s) !! n with
  | Some c => Some c
  | None => first_answer n ps
  end.
Proof.
  intros Hps. revert s. induction Hps as [|p ps [[m a] Hp] _ IH]; intros s Hs.
  - simpl. by destruct (cache (self s) !! n).
  - rewrite sniff_cons. simpl first_answer. rewrite Hp.
    pose proof (dns_detect_record p s m a Hp) as (Hr & Hc & _).
    pose proof (dns_detect_stop p s) as Hstop.
    destruct (dns_detect p s) as [[[]|e] s']; simpl in *; [|done].
    rewrite Hstop, Hs, IH by congruence. rewrite Hc.
    destruct (cache (self s) !! m) as [c0|] eqn:Hm.
    + destruct (cache (self s) !! n) eqn:Hn; [done|].
      destruct (decide (m = n)) as [->|]; [congruence|done].
    + destruct (decide (m = n)) as [->|Hne].
      * by rewrite lookup_insert_eq, Hm.
      * by rewrite lookup_insert_ne.
Qed.

Lemma suspicion_iff (iface : string) (ps : list Packet) :
  Forall is_response ps ->
  forall n c a,
    (n, c, a) ∈ suspicious_responses (self (captured iface ps)) <->
    exists pre p post,
      ps = pre ++ p :: post /\ record_of p = Some (n, a)
      /\ cache (self (captured iface pre)) !! n = Some c /\ c ≠ a.
Proof.
  induction ps as [|p0 ps IH] using rev_ind; intros Hps n c a.
  - split.
    + intros H. by apply elem_of_nil in H.
    + intros (pre & p & post & E & _). by destruct pre.
  - apply Forall_app in Hps as [Hps Hp0]. apply Forall_singleton in Hp0 as [[m b] Hp0].
    rewrite captured_snoc by done.
    pose proof (dns_detect_record p0 (captured iface ps) m b Hp0) as (_ & _ & ->).
    rewrite elem_of_app, (IH Hps). split.
    + intros [(pre & p & post & -> & Hp & Hc & Hne)|Hnew].
      * exists pre, p, (post ++ [p0]). by rewrite <- app_assoc.
      * destruct (cache (self (captured iface ps)) !! m) as [c0|] eqn:Hm;
          [|by apply elem_of_nil in Hnew].
        destruct (decide (c0 ≠ b)); [|by apply elem_of_nil in Hnew].
        apply list_elem_of_singleton in Hnew. injection Hnew as -> -> ->.
        by exists ps, p0, [].
    + intros (pre & p & post & E & Hp & Hc & Hne).
      destruct post as [|q post _] using rev_ind.
      * apply app_inj_tail in E as [-> ->]. right.
        assert (m = n /\ b = a) as [-> ->] by (split; congruence).
        rewrite Hc. destruct (decide (c ≠ a)); [|done]. apply list_elem_of_singleton. done.
      * left. rewrite app_comm_cons, app_assoc in E.
        apply app_inj_tail in E as [-> _]. by exists pre, p, post.
Qed.

Lemma sniff_app (ps more : list Packet) (s : Session) :
  Forall is_response ps -> stop_detecting (self s) = false ->
  (sniff (ps ++ more) s).2 = (sniff more (sniff ps s).2).2.
Proof.
  intros Hps. revert s. induction Hps as [|q ps [[n a] Hq] _ IH]; intros s Hs; [done|].
  rewrite <- app_comm_cons, !sniff_cons.
  pose proof (dns_detect_record q s n a Hq) as (Hr & _).
  pose proof (dns_detect_stop q s) as Hstop.
  destruct (dns_detect q s) as [[[]|e] s']; simpl in *; [|done].
  rewrite Hstop, Hs. apply IH. congruence.
Qed.

Lemma is_response_sample (name : string) (ip : PyVal) :
  utf8_valid (String.list_byte_of_string name) = true -> is_response (response name ip).
Proof.
  intros Hv. unfold is_response, record_of, response, bytes_decode; simpl.
  rewrite Hv. by eexists.
Qed.

(** ** Detection *)

(** C1. During a capture over response records, processing a record for
    name [n] with address [a] appends exactly the suspicion
    [(n, cached, a)] when the cache already holds an address [cached] for
    [n] that differs from [a], and appends nothing otherwise (no entry yet,
    or the same address); hence a suspicion is in the log if and only if
    such a record arrived. *)
Theorem suspicion_appended_iff_divergence (iface : string) (ps : list Packet) :
  Forall is_response ps ->
  (sniff ps (fresh iface)).1 = Returned tt
  /\ (forall pre p post n a,
        ps = pre ++ p :: post -> record_of p = Some (n, a) ->
        suspicious_responses (self (captured iface (pre ++ [p]))) =
        suspicious_responses (self (captured iface pre)) ++
        match cache (self (captured iface pre)) !! n with
        | Some cached => if decide (cached ≠ a) then [(n, cached, a)] else []
        | None => []
        end)
  /\ (forall n cached a,
        (n, cached, a) ∈ suspicious_responses (self (captured iface ps)) <->
        exists pre p post,
          ps = pre ++ p :: post /\ record_of p = Some (n, a)
          /\ cache (self (captured iface pre)) !! n = Some cached /\ cached ≠ a).
Proof.
  intros Hps. split; [|split].
  - by apply sniff_responses.
  - intros pre p post n a -> Hp. apply Forall_app in Hps as [Hpre _].
    rewrite captured_snoc by done.
    by pose proof (dns_detect_record p (captured iface pre) n a Hp) as (_ & _ & ->).
  - by apply suspicion_iff.
Qed.

Lemma suspicion_appended_iff_divergence_witness :
  Forall is_response scenario2
  /\ (foo, PyStr "1.1.1.1", PyStr "2.2.2.2")
     ∈ suspicious_responses (self (captured "Wi-Fi" scenario2)).
Proof.
  assert (Forall is_response scenario2) as H.
  { repeat constructor; by apply is_response_sample. }
  split; [exact H|].
  apply (proj2 (proj2 (suspicion_appended_iff_divergence "Wi-Fi" scenario2 H))).
  exists [response foo (PyStr "1.1.1.1")], (response foo (PyStr "2.2.2.2")), [].
  split; [done|]. split; [by vm_compute|]. split; [by vm_compute|done].
Defined.

(** C2. During a capture over response records the cache holds, for every
    name, the address of the first record that carried the name: the
    record that first carries [n] stores its address, and nothing that is
    captured later, whatever it is, changes the stored address. *)
Theorem first_write_wins (iface : string) (ps : list Packet) (n : string) :
  Forall is_response ps ->
  cache (self (captured iface ps)) !! n = first_answer n ps
  /\ (forall pre p post a,
        ps = pre ++ p :: post -> record_of p = Some (n, a) ->
        first_answer n pre = None ->
        cache (self (captured iface pre)) !! n = None
        /\ cache (self (captured iface (pre ++ [p]))) !! n = Some a
        /\ cache (self (captured iface ps)) !! n = Some a)
  /\ (forall c more,
        cache (self (captured iface ps)) !! n = Some c ->
        cache (self (captured iface (ps ++ more))) !! n = Some c).
Proof.
  intros Hps.
  assert (forall qs, Forall is_response qs ->
            cache (self (captured iface qs)) !! n = first_answer n qs) as Hfirst.
  { intros qs Hqs. unfold captured. by rewrite sniff_cache_lookup. }
  split; [by apply Hfirst|split].
  - intros pre p post a -> Hp Hpre.
    pose proof Hps as Hall. apply Forall_app in Hps as [Hps Hpost].
    assert (cache (self (captured iface pre)) !! n = None) as Hnone
      by (by rewrite Hfirst).
    assert (cache (self (captured iface (pre ++ [p]))) !! n = Some a) as Hsome.
    { rewrite captured_snoc by done.
      pose proof (dns_detect_record p (captured iface pre) n a Hp) as (_ & -> & _).
      by rewrite Hnone, lookup_insert_eq. }
    repeat split; [done..|].
    replace (pre ++ p :: post) with ((pre ++ [p]) ++ post) by by rewrite <- app_assoc.
    unfold captured. rewrite sniff_app; [by apply sniff_keeps_entry| |done].
    apply Forall_app. split; [done|]. apply Forall_singleton. by eexists.
  - intros c more Hc. unfold captured. rewrite sniff_app by done.
    by apply sniff_keeps_entry.
Qed.

Lemma first_write_wins_witness :
  Forall is_response scenario2
  /\ cache (self (captured "Wi-Fi" scenario2)) !! foo = Some (PyStr "1.1.1.1").
Proof.
  assert (Forall is_response scenario2) as H.
  { repeat constructor; by apply is_response_sample. }
  split; [exact H|].
  exact (proj1 (first_write_wins "Wi-Fi" scenario2 foo H)).
Defined.

(** C9. A packet without a resource record (a plain query, say) leaves the
    whole session as it was, cache and log included, and raises nothing. *)
Theorem no_answer_no_change (p : Packet) (s : Session) :
  dnsrr p = [] ->
  dns_detect p s = (Returned tt, s)
  /\ cache (self (dns_detect p s).2) = cache (self s)
  /\ suspicious_responses (self (dns_detect p s).2) = suspicious_responses (self s).
Proof. intros E. by rewrite dns_detect_no_rr. Qed.

Lemma no_answer_no_change_witness :
  dns_detect (query foo) (captured "Wi-Fi" scenario2)
  = (Returned tt, captured "Wi-Fi" scenario2).
Proof.
  exact (proj1 (no_answer_no_change (query foo) (captured "Wi-Fi" scenario2) eq_refl)).
Defined.

(** ** Attribution *)

Lemma trace_actual_dns_run (w : World) (domain : string) (real_ip spoofed_ip : PyVal)
    (s : Session) :
  (trace_actual_dns w domain real_ip spoofed_ip s).1 = Returned tt
  /\ self (trace_actual_dns w domain real_ip spoofed_ip s).2 = self s
  /\ exists evs,
       console (trace_actual_dns w domain real_ip spoofed_ip s).2
       = console s ++ Printed (TracingActualDNS domain) :: evs
       /\ attribution_report w domain real_ip spoofed_ip evs.
Proof.
  unfold attribution_report, trace_actual_dns. unfold_monad.
  destruct (whois w domain) as [[reg [ns|]]|ew];
    destruct (lookup_rdap w RealIP real_ip) as [ir|er];
    destruct (lookup_rdap w SpoofedIP spoofed_ip) as [isp|es];
    (split; [done|split; [done|]]); flatten_console;
    (eexists; split; [reflexivity|]);
    repeat split; try done; intros; simplify_eq/=; set_solver.
Qed.

Lemma trace_actual_dns_emitted (w : World) (domain : string)
    (real_ip spoofed_ip : PyVal) (s : Session) :
  emitted (trace_actual_dns w domain real_ip spoofed_ip) s
  = Printed (TracingActualDNS domain) ::
    whois_report domain (whois w domain)
    ++ rdap_report RealIP real_ip (lookup_rdap w RealIP real_ip)
    ++ rdap_report SpoofedIP spoofed_ip (lookup_rdap w SpoofedIP spoofed_ip).
Proof.
  apply emitted_app. unfold whois_report, rdap_report, trace_actual_dns. unfold_monad.
  destruct (whois w domain) as [[reg [ns|]]|ew];
    destruct (lookup_rdap w RealIP real_ip) as [ir|er];
    destruct (lookup_rdap w SpoofedIP spoofed_ip) as [isp|es];
    by flatten_console.
Qed.

Example trace_with_every_lookup_failing :
  emitted (trace_actual_dns (failing_with NXDOMAIN) foo (PyStr "3.3.3.3") (PyStr "1.1.1.1"))
    (fresh "Wi-Fi")
  = [Printed (TracingActualDNS foo);
     Called (Whois foo);
     Printed (WhoisUnavailable (OtherException "PywhoisError"));
     Called (Rdap (PyStr "3.3.3.3"));
     Printed (IPInfoUnavailable RealIP (OtherException "HTTPLookupError"));
     Called (Rdap (PyStr "1.1.1.1"));
     Printed (IPInfoUnavailable SpoofedIP (OtherException "HTTPLookupError"))].
Proof. reflexivity. Qed.

Example trace_without_name_servers :
  emitted (trace_actual_dns no_name_servers foo (PyStr "3.3.3.3") (PyStr "1.1.1.1"))
    (fresh "Wi-Fi")
  = [Printed (TracingActualDNS foo);
     Called (Whois foo);
     Printed (DomainRegistrar (Some "Example Registrar"));
     Printed (WhoisUnavailable TypeError);
     Called (Rdap (PyStr "3.3.3.3"));
     Printed (Asn RealIP None);
     Printed (AsnDescription RealIP None);
     Called (Rdap (PyStr "1.1.1.1"));
     Printed (Asn SpoofedIP None);
     Printed (AsnDescription SpoofedIP None)].
Proof. by vm_compute. Qed.

(** C7. In one trace the three lookups (WHOIS for the domain, RDAP for the
    first address, RDAP for the second) are all made whatever any of them
    answers or raises; no exception leaves the trace; a lookup that raised
    is reported as not retrievable, and so is the [TypeError] that joining
    the name servers raises inside the WHOIS block; a lookup that succeeded
    has its fields printed (registrar and name servers, number and
    description of the autonomous system), whatever happened to the other
    two.  Altogether the output is the heading line followed by the three
    reports, each a function of the answer of its own lookup. *)
Theorem sub_lookups_fail_independently (w : World) (domain : string)
    (real_ip spoofed_ip : PyVal) (s : Session) :
  let evs := emitted (trace_actual_dns w domain real_ip spoofed_ip) s in
  (trace_actual_dns w domain real_ip spoofed_ip s).1 = Returned tt
  /\ calls evs = [Whois domain; Rdap real_ip; Rdap spoofed_ip]
  /\ (forall e, whois w domain = Raised e -> Printed (WhoisUnavailable e) ∈ evs)
  /\ (forall e, lookup_rdap w RealIP real_ip = Raised e ->
        Printed (IPInfoUnavailable RealIP e) ∈ evs)
  /\ (forall e, lookup_rdap w SpoofedIP spoofed_ip = Raised e ->
        Printed (IPInfoUnavailable SpoofedIP e) ∈ evs)
  /\ (forall info, whois w domain = Returned info ->
        Printed (DomainRegistrar (registrar info)) ∈ evs)
  /\ (forall info servers, whois w domain = Returned info ->
        name_servers info = Some servers ->
        Printed (NameServers (String.concat ", " servers)) ∈ evs)
  /\ (forall info, whois w domain = Returned info ->
        name_servers info = None ->
        Printed (WhoisUnavailable TypeError) ∈ evs)
  /\ (forall info, lookup_rdap w RealIP real_ip = Returned info ->
        Printed (Asn RealIP (info !! "asn")) ∈ evs
        /\ Printed (AsnDescription RealIP (info !! "asn_description")) ∈ evs)
  /\ (forall info, lookup_rdap w SpoofedIP spoofed_ip = Returned info ->
        Printed (Asn SpoofedIP (info !! "asn")) ∈ evs
        /\ Printed (AsnDescription SpoofedIP (info !! "asn_description")) ∈ evs)
  /\ evs = Printed (TracingActualDNS domain) ::
           whois_report domain (whois w domain)
           ++ rdap_report RealIP real_ip (lookup_rdap w RealIP real_ip)
           ++ rdap_report SpoofedIP spoofed_ip (lookup_rdap w SpoofedIP spoofed_ip).
Proof.
  intros evs.
  pose proof (trace_actual_dns_emitted w domain real_ip spoofed_ip s) as Hexact.
  change (emitted (trace_actual_dns w domain real_ip spoofed_ip) s) with evs in Hexact.
  destruct (trace_actual_dns_run w domain real_ip spoofed_ip s)
    as (Hret & _ & tl & Hcons & Hcalls & Hw & Hr & Hs & Hreg & Hns & Hrf & Hsf).
  assert (evs = Printed (TracingActualDNS domain) :: tl) as Hevs
    by (by apply emitted_app).
  split; [done|]. split; [by rewrite Hevs|].
  split; [by intros; rewrite Hevs; apply list_elem_of_further, Hw|].
  split; [by intros; rewrite Hevs; apply list_elem_of_further, Hr|].
  split; [by intros; rewrite Hevs; apply list_elem_of_further, Hs|].
  split; [by intros; rewrite Hevs; apply list_elem_of_further, Hreg|].
  split; [by intros info servers Hi Hn; rewrite Hevs;
             apply list_elem_of_further, (Hns info servers)|].
  split.
  { intros info Hi Hn. rewrite Hexact. unfold whois_report. rewrite Hi, Hn.
    do 3 apply list_elem_of_further. apply list_elem_of_here. }
  split; [|split; [|done]]; intros info Hi; rewrite Hevs.
  - destruct (Hrf info Hi). by split; apply list_elem_of_further.
  - destruct (Hsf info Hi). by split; apply list_elem_of_further.
Qed.

(** ** Verification of one name *)

Lemma verify_dns_failed (w : World) (domain : string) (s : Session) (e : Exn) :
  resolve_A w domain = Raised e ->
  verify_dns w domain s
  = (Returned None,
     {| self := self s;
        console := console s ++
          [Called (Resolve domain);
           Printed (match e with
                    | NXDOMAIN => DoesNotExist domain
                    | _ => ErrorResolving domain e
                    end)] |}).
Proof.
  intros E. unfold verify_dns. unfold_monad. rewrite E.
  destruct e; by flatten_console.
Qed.

Lemma verify_dns_unconfirmed (w : World) (domain : string) (s : Session) (ip : string) :
  resolve_A w domain = Returned ip ->
  match cache (self s) !! domain with
  | Some cached_ip => truthy cached_ip && bool_decide (PyStr ip ≠ cached_ip) = false
  | None => True
  end ->
  verify_dns w domain s
  = (Returned (Some ip),
     {| self := self s; console := console s ++ [Called (Resolve domain)] |}).
Proof.
  intros E Hc. unfold verify_dns. unfold_monad. rewrite E. simpl.
  destruct (cache (self s) !! domain) as [c|]; [|done]. by rewrite Hc.
Qed.

Lemma verify_dns_confirmed (w : World) (domain : string) (s : Session) (ip : string)
    (cached_ip : PyVal) :
  resolve_A w domain = Returned ip ->
  cache (self s) !! domain = Some cached_ip ->
  truthy cached_ip && bool_decide (PyStr ip ≠ cached_ip) = true ->
  (verify_dns w domain s).1 = Returned (Some ip)
  /\ self (verify_dns w domain s).2 = self s
  /\ exists evs,
       console (verify_dns w domain s).2
       = console s ++
         [Called (Resolve domain);
          Printed (ConfirmedSpoofing domain);
          Printed (RealIPLine ip);
          Printed (SpoofedIPLine cached_ip);
          Printed (TracingActualDNS domain)] ++ evs
       /\ attribution_report w domain (PyStr ip) cached_ip evs.
Proof.
  intros E Hc Ht. unfold verify_dns.
  unfold call, print, try_except, emit, lift, get_self.
  repeat (rewrite bind_run; simpl). rewrite E; simpl.
  repeat (rewrite bind_run; simpl). rewrite Hc, Ht.
  repeat (rewrite bind_run; simpl).
  set (s1 := {| self := self s; console := _ |}).
  destruct (trace_actual_dns_run w domain (PyStr ip) cached_ip s1)
    as (Hret & Hself & evs & Hcons & Hrep).
  destruct (trace_actual_dns w domain (PyStr ip) cached_ip s1) as [[[]|e] s2];
    [|done]; simpl in *.
  split; [done|]. split; [done|]. exists evs. split; [|done].
  rewrite Hcons. subst s1. by flatten_console.
Qed.

Lemma verify_dns_verdict (w : World) (domain : string) (s : Session) :
  (verify_dns w domain s).1 = verdict w domain
  /\ self (verify_dns w domain s).2 = self s.
Proof.
  unfold verdict. destruct (resolve_A w domain) as [ip|e] eqn:E.
  - destruct (cache (self s) !! domain) as [c|] eqn:Hc.
    + destruct (truthy c && bool_decide (PyStr ip ≠ c)) eqn:Ht.
      * by destruct (verify_dns_confirmed w domain s ip c E Hc Ht) as (? & ? & _).
      * rewrite (verify_dns_unconfirmed w domain s ip E); [done|]. by rewrite Hc.
    + rewrite (verify_dns_unconfirmed w domain s ip E); [done|]. by rewrite Hc.
  - by rewrite (verify_dns_failed w domain s e E).
Qed.

(** ** The worker pool *)

Section WorkerPool.
Variable worlds : nat -> World.
Variable s0 : Session.

Lemma pool_inv_dispatch : pool_inv worlds s0 (dispatch s0).
Proof.
  unfold pool_inv, dispatch, max_workers; simpl.
  split; [lia|]. split; [by rewrite app_nil_r|]. by split.
Qed.

Lemma pool_inv_step (p p' : Pool) :
  pool_inv worlds s0 p -> pool_step worlds p p' -> pool_inv worlds s0 p'.
Proof.
  intros (Hlen & Hperm & Hself & Hres) Hstep.
  destruct Hstep as [t q r c s Hfree|t q r1 r2 c s]; unfold pool_inv in *; simpl in *.
  - split; [rewrite length_app; simpl; lia|].
    split; [|by split].
    rewrite <- Hperm. solve_Permutation.
  - destruct (verify_dns_verdict (worlds t.1) t.2 s) as [Hv Hs].
    split.
    { rewrite length_app in *; simpl in *. lia. }
    split.
    { rewrite <- Hperm, fmap_app; simpl. solve_Permutation. }
    split; [congruence|].
    rewrite Forall_app. split; [done|]. by apply Forall_singleton.
Qed.

Lemma pool_inv_reachable (p : Pool) :
  rtc (pool_step worlds) (dispatch s0) p -> pool_inv worlds s0 p.
Proof.
  revert p. apply (rtc_ind_r (R := pool_step worlds) (pool_inv worlds s0));
    [apply pool_inv_dispatch|].
  intros p1 p2 _ Hstep Hp1. by apply (pool_inv_step p1 p2).
Qed.
End WorkerPool.

Lemma one_by_one_run (worlds : nat -> World) (q : list Task) (c : list Future)
    (s : Session) :
  rtc (pool_step worlds)
    {| queued := q; running := []; completed := c; session := s |}
    (one_by_one worlds q c s)
  /\ all_done (one_by_one worlds q c s).
Proof.
  revert c s. induction q as [|t q IH]; intros c s; [by split|].
  destruct (IH (c ++ [(t, (verify_dns (worlds t.1) t.2 s).1)])
               (verify_dns (worlds t.1) t.2 s).2) as [Hrun Hdone].
  split; [|done]. simpl.
  eapply rtc_l; [apply (step_start worlds t q [] c s); unfold max_workers; simpl; lia|].
  eapply rtc_l; [apply (step_finish worlds t q [] [] c s)|]. done.
Qed.

Lemma verify_one_by_one_run (worlds : nat -> World) (s : Session) :
  verify_suspicious_responses worlds s (verify_one_by_one worlds s).
Proof. apply one_by_one_run. Qed.

(** From wherever the pool stands, the running tasks can finish and the
    queue can be drained. *)
Lemma pool_can_finish (worlds : nat -> World) (p : Pool) :
  exists p', rtc (pool_step worlds) p p' /\ all_done p'.
Proof.
  destruct p as [q r c s]. revert c s. induction r as [|t r IH]; intros c s.
  - eexists. apply one_by_one_run.
  - destruct (IH (c ++ [(t, (verify_dns (worlds t.1) t.2 s).1)])
                 (verify_dns (worlds t.1) t.2 s).2) as (p' & Hrun & Hdone).
    exists p'. split; [|done].
    eapply rtc_l; [apply (step_finish worlds t q [] r c s)|]. done.
Qed.

Lemma submissions_names (d : Detector) :
  (submissions d).*2 = (fun r : Suspicion => r.1.1) <$> suspicious_responses d.
Proof.
  unfold submissions.
  assert (forall (l : list Suspicion) (f : nat -> Suspicion -> Task),
            (forall i r, (f i r).2 = r.1.1) ->
            (imap f l).*2 = (fun r : Suspicion => r.1.1) <$> l) as Himap.
  { induction l as [|r l IH]; intros f Hf; [done|].
    simpl. rewrite Hf. f_equal. apply IH. intros i r'. apply Hf. }
  apply Himap. by intros i [[n c] o].
Qed.

(** ** Verification *)

(** C3, amended. For a name of the log whose cached address is non-empty
    and whose trusted lookup succeeds, [verify_dns] returns the resolver's
    address, and it reports a confirmed spoof and starts the attribution
    trace if and only if the resolver's answer differs from the cached
    address quoted in the record; when they are equal it does nothing
    beyond the lookup. *)
Theorem confirmed_iff_resolver_differs (iface : string) (ps : list Packet)
    (w : World) (n : string) (cached observed : PyVal) (ip : string) :
  (n, cached, observed) ∈ suspicious_responses (self (captured iface ps)) ->
  resolve_A w n = Returned ip ->
  truthy cached = true ->
  (verify_dns w n (captured iface ps)).1 = Returned (Some ip)
  /\ (Printed (ConfirmedSpoofing n) ∈ emitted (verify_dns w n) (captured iface ps)
      <-> PyStr ip ≠ cached)
  /\ (Printed (TracingActualDNS n) ∈ emitted (verify_dns w n) (captured iface ps)
      <-> PyStr ip ≠ cached)
  /\ (PyStr ip = cached ->
      emitted (verify_dns w n) (captured iface ps) = [Called (Resolve n)]).
Proof.
  intros Hlog E Htruthy. set (s := captured iface ps).
  assert (cache (self s) !! n = Some cached) as Hc
    by (by apply (captured_log_quotes_cache iface ps n cached observed)).
  destruct (decide (PyStr ip = cached)) as [Heq|Hne].
  - assert (verify_dns w n s
            = (Returned (Some ip),
               {| self := self s; console := console s ++ [Called (Resolve n)] |}))
      as Hrun.
    { apply verify_dns_unconfirmed; [done|]. rewrite Hc, Htruthy. simpl.
      by apply bool_decide_eq_false; intros ?. }
    assert (emitted (verify_dns w n) s = [Called (Resolve n)]) as ->
      by (apply emitted_app; by rewrite Hrun).
    rewrite Hrun. split; [done|].
    split; [|split]; [..|done];
      (split; [intros H%list_elem_of_singleton; discriminate|done]).
  - assert (truthy cached && bool_decide (PyStr ip ≠ cached) = true) as Hb.
    { rewrite Htruthy. simpl. by apply bool_decide_eq_true. }
    destruct (verify_dns_confirmed w n s ip cached E Hc Hb) as (Hr & _ & evs & Hcons & _).
    apply emitted_app in Hcons. rewrite Hcons.
    split; [done|]. split; [|split]; [..|done]; (split; [done|]); intros _.
    + apply list_elem_of_further, list_elem_of_here.
    + do 4 apply list_elem_of_further. apply list_elem_of_here.
Qed.

Lemma confirmed_iff_resolver_differs_witness :
  (foo, PyStr "1.1.1.1", PyStr "2.2.2.2")
    ∈ suspicious_responses (self (captured "Wi-Fi" scenario2))
  /\ resolve_A (resolving_to "3.3.3.3") foo = Returned "3.3.3.3"
  /\ truthy (PyStr "1.1.1.1") = true
  /\ Printed (ConfirmedSpoofing foo)
       ∈ emitted (verify_dns (resolving_to "3.3.3.3") foo) (captured "Wi-Fi" scenario2).
Proof.
  assert ((foo, PyStr "1.1.1.1", PyStr "2.2.2.2")
            ∈ suspicious_responses (self (captured "Wi-Fi" scenario2))) as H
    by (vm_compute; apply list_elem_of_here).
  split; [exact H|]. split; [reflexivity|]. split; [reflexivity|].
  apply (proj1 (proj2 (confirmed_iff_resolver_differs "Wi-Fi" scenario2
                         (resolving_to "3.3.3.3") foo (PyStr "1.1.1.1")
                         (PyStr "2.2.2.2") "3.3.3.3" H eq_refl eq_refl))).
  discriminate.
Defined.

(** C3 as stated fails: the first answer for [foo] carried empty data, a
    later one an address, so [foo] is in the log with an empty cached
    address; the resolver's answer differs from it, yet no confirmation is
    reported. *)
Lemma empty_cached_address_never_confirmed :
  (foo, PyBytes [], PyStr "2.2.2.2")
    ∈ suspicious_responses (self (captured "Wi-Fi" empty_then_address))
  /\ resolve_A (resolving_to "3.3.3.3") foo = Returned "3.3.3.3"
  /\ PyStr "3.3.3.3" ≠ PyBytes []
  /\ Printed (ConfirmedSpoofing foo)
       ∉ emitted (verify_dns (resolving_to "3.3.3.3") foo)
           (captured "Wi-Fi" empty_then_address).
Proof.
  split; [vm_compute; apply list_elem_of_here|].
  split; [reflexivity|]. split; [discriminate|].
  apply (bool_decide_unpack _). by vm_compute.
Qed.

(** C4, amended. For a confirmed spoof on a name of the log, the lookups
    [verify_dns] makes are, in this order: the trusted resolution of the
    name, the registrar lookup for the name, the autonomous-system lookup
    for the resolver's answer, and the autonomous-system lookup for the
    cached address quoted in the record. *)
Theorem attribution_queries_resolved_and_cached (iface : string) (ps : list Packet)
    (w : World) (n : string) (cached observed : PyVal) (ip : string) :
  (n, cached, observed) ∈ suspicious_responses (self (captured iface ps)) ->
  resolve_A w n = Returned ip ->
  truthy cached = true ->
  PyStr ip ≠ cached ->
  Printed (ConfirmedSpoofing n) ∈ emitted (verify_dns w n) (captured iface ps)
  /\ calls (emitted (verify_dns w n) (captured iface ps))
     = [Resolve n; Whois n; Rdap (PyStr ip); Rdap cached].
Proof.
  intros Hlog E Ht Hne. set (s := captured iface ps).
  assert (cache (self s) !! n = Some cached) as Hc
    by (by apply (captured_log_quotes_cache iface ps n cached observed)).
  assert (truthy cached && bool_decide (PyStr ip ≠ cached) = true) as Hb.
  { rewrite Ht. simpl. by apply bool_decide_eq_true. }
  destruct (verify_dns_confirmed w n s ip cached E Hc Hb)
    as (_ & _ & evs & Hcons & Hcalls & _).
  apply emitted_app in Hcons. rewrite Hcons. split.
  - apply list_elem_of_further, list_elem_of_here.
  - simpl. unfold calls in *. simpl. by rewrite Hcalls.
Qed.

Lemma attribution_queries_resolved_and_cached_witness :
  (foo, PyStr "1.1.1.1", PyStr "2.2.2.2")
    ∈ suspicious_responses (self (captured "Wi-Fi" scenario2))
  /\ calls (emitted (verify_dns (resolving_to "3.3.3.3") foo) (captured "Wi-Fi" scenario2))
     = [Resolve foo; Whois foo; Rdap (PyStr "3.3.3.3"); Rdap (PyStr "1.1.1.1")].
Proof.
  assert ((foo, PyStr "1.1.1.1", PyStr "2.2.2.2")
            ∈ suspicious_responses (self (captured "Wi-Fi" scenario2))) as H
    by (vm_compute; apply list_elem_of_here).
  split; [exact H|].
  apply (attribution_queries_resolved_and_cached "Wi-Fi" scenario2
           (resolving_to "3.3.3.3") foo (PyStr "1.1.1.1") (PyStr "2.2.2.2") "3.3.3.3" H);
    [reflexivity|reflexivity|discriminate].
Defined.

(** C4 as stated fails: in scenario 2 with the resolver answering 3.3.3.3
    the spoof is confirmed, and no autonomous-system lookup is made for the
    observed address 2.2.2.2 of the record. *)
Lemma observed_address_not_looked_up :
  (foo, PyStr "1.1.1.1", PyStr "2.2.2.2")
    ∈ suspicious_responses (self (captured "Wi-Fi" scenario2))
  /\ Printed (ConfirmedSpoofing foo)
       ∈ emitted (verify_dns (resolving_to "3.3.3.3") foo) (captured "Wi-Fi" scenario2)
  /\ Called (Rdap (PyStr "2.2.2.2"))
       ∉ emitted (verify_dns (resolving_to "3.3.3.3") foo) (captured "Wi-Fi" scenario2).
Proof.
  split; [vm_compute; apply list_elem_of_here|].
  split; apply (bool_decide_unpack _); by vm_compute.
Qed.

(** C10. For a domain without cache entry whose trusted lookup succeeds,
    [verify_dns] returns the resolved address and does nothing but the
    lookup: no confirmation is reported and no trace is started. *)
Theorem no_cache_entry_never_confirmed (w : World) (domain : string) (s : Session)
    (ip : string) :
  cache (self s) !! domain = None ->
  resolve_A w domain = Returned ip ->
  (verify_dns w domain s).1 = Returned (Some ip)
  /\ emitted (verify_dns w domain) s = [Called (Resolve domain)]
  /\ (Printed (ConfirmedSpoofing domain) ∉ emitted (verify_dns w domain) s)
  /\ (Printed (TracingActualDNS domain) ∉ emitted (verify_dns w domain) s)
  /\ calls (emitted (verify_dns w domain) s) = [Resolve domain].
Proof.
  intros Hc E.
  assert (verify_dns w domain s
          = (Returned (Some ip),
             {| self := self s; console := console s ++ [Called (Resolve domain)] |}))
    as Hrun by (apply verify_dns_unconfirmed; [done|by rewrite Hc]).
  assert (emitted (verify_dns w domain) s = [Called (Resolve domain)]) as ->
    by (apply emitted_app; by rewrite Hrun).
  rewrite Hrun. split; [done|]. split; [done|].
  split; [|split]; [..|done]; intros H%list_elem_of_singleton; discriminate.
Qed.

Lemma no_cache_entry_never_confirmed_witness :
  cache (self (captured "Wi-Fi" scenario2)) !! bar = None
  /\ emitted (verify_dns (resolving_to "3.3.3.3") bar) (captured "Wi-Fi" scenario2)
     = [Called (Resolve bar)].
Proof.
  assert (cache (self (captured "Wi-Fi" scenario2)) !! bar = None) as H
    by (by vm_compute).
  split; [exact H|].
  exact (proj1 (proj2 (no_cache_entry_never_confirmed (resolving_to "3.3.3.3") bar
                         (captured "Wi-Fi" scenario2) "3.3.3.3" H eq_refl))).
Defined.

(** C6. Neither [verify_dns] nor [trace_actual_dns] changes the detector
    object, whatever the lookups answer or raise: the cache after the call
    is the cache before it; and so it is in every state the worker pool
    goes through. *)
Theorem verification_never_mutates_cache (w : World) (domain : string)
    (real_ip spoofed_ip : PyVal) (s : Session) (worlds : nat -> World) :
  self (verify_dns w domain s).2 = self s
  /\ cache (self (verify_dns w domain s).2) = cache (self s)
  /\ self (trace_actual_dns w domain real_ip spoofed_ip s).2 = self s
  /\ cache (self (trace_actual_dns w domain real_ip spoofed_ip s).2) = cache (self s)
  /\ (forall p, rtc (pool_step worlds) (dispatch s) p ->
        cache (self (session p)) = cache (self s)).
Proof.
  destruct (verify_dns_verdict w domain s) as [_ Hv].
  destruct (trace_actual_dns_run w domain real_ip spoofed_ip s) as (_ & Ht & _).
  rewrite Hv, Ht. repeat split.
  intros p Hp. by destruct (pool_inv_reachable worlds s p Hp) as (_ & _ & -> & _).
Qed.

(** ** The verification phase *)

Lemma verification_phase_invariant (worlds : nat -> World) (s : Session) (p : Pool) :
  rtc (pool_step worlds) (dispatch (print VerifyingBanner s).2) p ->
  length (running p) <= max_workers
  /\ queued p ++ running p ++ (completed p).*1 ≡ₚ submissions (self s)
  /\ self (session p) = self s
  /\ Forall (fun f : Future => f.2 = verdict (worlds f.1.1) f.1.2) (completed p).
Proof. intros Hp. apply (pool_inv_reachable worlds _ p Hp). Qed.

Lemma verification_phase_futures (worlds : nat -> World) (s : Session) (p : Pool) :
  verify_suspicious_responses worlds s p ->
  (completed p).*1 ≡ₚ submissions (self s)
  /\ forall t, t ∈ submissions (self s) -> (t, verdict (worlds t.1) t.2) ∈ completed p.
Proof.
  intros [Hrun [Hq Hr]].
  destruct (verification_phase_invariant worlds s p Hrun) as (_ & Hperm & _ & Hres).
  rewrite Hq, Hr in Hperm. simpl in Hperm. split; [done|].
  intros t Ht. rewrite <- Hperm in Ht.
  apply list_elem_of_fmap in Ht as ([t' o] & -> & Hf).
  rewrite Forall_forall in Hres. specialize (Hres _ Hf). simpl in *. by subst o.
Qed.

(** C5, amended. The verification phase submits one task per record of the
    log, in log order, so a name with several records is verified as many
    times; at most 5 tasks run at any time; when the wait returns, the
    completed futures are exactly the submitted tasks; and from every state
    the pool goes through, the phase can run to completion. *)
Theorem one_task_per_suspicion_record (worlds : nat -> World) (s : Session) :
  (submissions (self s)).*2
    = (fun r : Suspicion => r.1.1) <$> suspicious_responses (self s)
  /\ length (submissions (self s)) = length (suspicious_responses (self s))
  /\ max_workers = 5
  /\ (forall p, rtc (pool_step worlds) (dispatch (print VerifyingBanner s).2) p ->
        length (running p) <= 5
        /\ exists p', rtc (pool_step worlds) p p' /\ all_done p')
  /\ (forall p, verify_suspicious_responses worlds s p ->
        (completed p).*1 ≡ₚ submissions (self s))
  /\ verify_suspicious_responses worlds s (verify_one_by_one worlds s).
Proof.
  split; [apply submissions_names|].
  split; [unfold submissions; apply length_imap|].
  split; [done|]. split; [|split].
  - intros p Hp. split; [|apply pool_can_finish].
    by destruct (verification_phase_invariant worlds s p Hp) as (? & _).
  - intros p Hp. by destruct (verification_phase_futures worlds s p Hp).
  - apply verify_one_by_one_run.
Qed.

(** C5 as stated fails: after [foo] diverged twice, two tasks are submitted
    for [foo], although the log holds one distinct name, and the resolver is
    asked for [foo] twice. *)
Lemma same_name_verified_twice :
  (submissions (self (captured "Wi-Fi" twice_diverging))).*2 = [foo; foo]
  /\ remove_dups ((fun r : Suspicion => r.1.1)
                    <$> suspicious_responses (self (captured "Wi-Fi" twice_diverging)))
     = [foo]
  /\ calls (drop (length (console (captured "Wi-Fi" twice_diverging)))
              (console (session (verify_one_by_one (fun _ => resolving_to "1.1.1.1")
                                   (captured "Wi-Fi" twice_diverging)))))
     = [Resolve foo; Resolve foo].
Proof. repeat split; by vm_compute. Qed.

(** C8. When the trusted resolver raises for a name, be it [NXDOMAIN] or
    anything else, [verify_dns] raises nothing, returns [None], prints the
    corresponding line and makes no attribution lookup; and whatever the
    lookups of any task do, when the phase returns every submitted task has
    completed with its own verdict: the resolved address where the resolver
    answered, [None] where it raised. *)
Theorem resolver_failure_excludes_only_that_name (w : World) (domain : string)
    (e : Exn) (s : Session) :
  resolve_A w domain = Raised e ->
  (verify_dns w domain s).1 = Returned None
  /\ emitted (verify_dns w domain) s
     = [Called (Resolve domain);
        Printed (match e with
                 | NXDOMAIN => DoesNotExist domain
                 | _ => ErrorResolving domain e
                 end)]
  /\ (forall w' domain' s', exists r, (verify_dns w' domain' s').1 = Returned r)
  /\ (forall worlds s1 p,
        verify_suspicious_responses worlds s1 p ->
        forall t, t ∈ submissions (self s1) ->
                  (t, verdict (worlds t.1) t.2) ∈ completed p)
  /\ (forall worlds s1, verify_suspicious_responses worlds s1 (verify_one_by_one worlds s1)).
Proof.
  intros E. rewrite (verify_dns_failed w domain s e E). split; [done|].
  split.
  { apply emitted_app. by rewrite (verify_dns_failed w domain s e E). }
  split; [|split].
  - intros w' d' s'. destruct (verify_dns_verdict w' d' s') as [-> _].
    unfold verdict. destruct (resolve_A w' d'); by eexists.
  - intros worlds s1 p Hp. by destruct (verification_phase_futures worlds s1 p Hp).
  - intros worlds s1. apply verify_one_by_one_run.
Qed.

Lemma resolver_failure_excludes_only_that_name_witness :
  resolve_A foo_missing foo = Raised NXDOMAIN
  /\ emitted (verify_dns foo_missing foo) (captured "Wi-Fi" two_names)
     = [Called (Resolve foo); Printed (DoesNotExist foo)]
  /\ completed (verify_one_by_one (fun _ => foo_missing) (captured "Wi-Fi" two_names))
     = [((0, foo), Returned None); ((1, bar), Returned (Some "9.9.9.9"))].
Proof.
  split; [reflexivity|]. split.
  - exact (proj1 (proj2 (resolver_failure_excludes_only_that_name foo_missing foo
                           NXDOMAIN (captured "Wi-Fi" two_names) eq_refl))).
  - by vm_compute.
Defined.

(** * Further properties of the detector *)

(** ** Packets the callback fails on *)

Lemma dns_detect_cases (p : Packet) (s : Session) :
  match dnsrr p, dnsqr p with
  | [], _ => dns_detect p s = (Returned tt, s)
  | _ :: _, [] => dns_detect p s = (Raised IndexError, s)
  | _ :: _, qr :: _ =>
      if utf8_valid (qname qr) then (dns_detect p s).1 = Returned tt
      else dns_detect p s = (Raised UnicodeDecodeError, s)
  end.
Proof.
  unfold dns_detect. destruct p as [qs rs]; simpl.
  destruct rs as [|rr rs']; [done|]. destruct qs as [|qr qs']; [done|].
  unfold_monad; simpl. unfold bytes_decode.
  destruct (utf8_valid (qname qr)); [|done]. simpl.
  destruct (cache (self s) !! _) as [c|]; simpl; [|done].
  by destruct (decide (c ≠ rdata rr)).
Qed.

(** X1. [dns_detect] raises in two cases only, both on a packet that has a
    resource record: [IndexError] when the packet has no question record,
    [UnicodeDecodeError] when the name of its first question is not valid
    UTF-8; when it raises, the session is as it was. *)
Theorem dns_detect_failure_modes (p : Packet) (s : Session) :
  ((dns_detect p s).1 = Raised IndexError <-> dnsrr p <> [] /\ dnsqr p = [])
  /\ ((dns_detect p s).1 = Raised UnicodeDecodeError <->
      dnsrr p <> [] /\ exists qr qs, dnsqr p = qr :: qs /\ utf8_valid (qname qr) = false)
  /\ (forall e, (dns_detect p s).1 = Raised e ->
        (e = IndexError \/ e = UnicodeDecodeError) /\ (dns_detect p s).2 = s).
Proof.
  pose proof (dns_detect_cases p s) as H.
  destruct (dnsrr p) as [|rr rs]; [|destruct (dnsqr p) as [|qr qs]].
  - rewrite H; simpl. split; [|split].
    + split; [done|]. by intros [? _].
    + split; [done|]. by intros [? _].
    + done.
  - rewrite H; simpl. split; [|split].
    + done.
    + split; [done|]. by intros (_ & qr & qs & ? & _).
    + intros e [= <-]. split; [by left|done].
  - destruct (utf8_valid (qname qr)) eqn:Hv.
    + rewrite H. split; [|split].
      * split; [done|]. by intros [_ ?].
      * split; [done|]. intros (_ & qr' & qs' & [= <- <-] & ?). congruence.
      * done.
    + rewrite H; simpl. split; [|split].
      * split; [done|]. by intros [_ ?].
      * split; [|done]. intros _. split; [done|]. by exists qr, qs.
      * intros e [= <-]. split; [by right|done].
Qed.

(** X3. [start_detecting] never raises, whatever the capture source does;
    when the source itself fails, no packet is processed, the detector is
    untouched and two lines are printed: the starting line and the
    permission or error line. *)
Theorem start_detecting_contains_failures (source : Outcome (list Packet))
    (s : Session) :
  (start_detecting source s).1 = Returned tt
  /\ (forall e, source = Raised e ->
        (start_detecting source s).2
        = {| self := self s;
             console := console s ++
               [Printed (StartingDetection (interface (self s)));
                Printed (match e with
                         | PermissionError => PermissionDenied
                         | _ => AnErrorOccurred e
                         end)] |}).
Proof.
  unfold start_detecting. unfold_monad. simpl. destruct source as [ps|e]; simpl.
  - split; [|done]. destruct (sniff ps _) as [[[]|e] s']; [done|]. by destruct e.
  - split; [by destruct e|]. intros e' [= <-]. destruct e; by flatten_console.
Qed.

(** ** The stop flag *)

Lemma sniff_keeps_flag_up (ps : list Packet) (s : Session) :
  stop_detecting (self s) = true -> stop_detecting (self (sniff ps s).2) = true.
Proof.
  revert ps s. apply (sniff_preserves (fun s => stop_detecting (self s) = true)).
  intros p s. by rewrite dns_detect_stop.
Qed.

(** X4. The stop is cooperative and permanent: once the flag is up, a
    capture still hands its first packet to [dns_detect] and ignores all
    the others, and the flag is still up afterwards; this is so in
    particular after [stop_detection]. *)
Theorem stop_handles_one_more_packet (ps : list Packet) (s : Session) :
  stop_detecting (self s) = true ->
  sniff ps s = sniff (take 1 ps) s
  /\ (forall p rest, ps = p :: rest -> (sniff ps s).2 = (dns_detect p s).2)
  /\ stop_detecting (self (sniff ps s).2) = true
  /\ stop_detecting (self (stop_detection s).2) = true.
Proof.
  intros Hs. split; [|split; [|split]].
  - destruct ps as [|p rest]; [done|]. simpl take. rewrite !sniff_cons.
    pose proof (dns_detect_stop p s) as Hstop.
    destruct (dns_detect p s) as [[[]|e] s']; simpl in *; [|done].
    by rewrite Hstop, Hs.
  - intros p rest ->. rewrite sniff_cons.
    pose proof (dns_detect_stop p s) as Hstop.
    destruct (dns_detect p s) as [[[]|e] s']; simpl in *; [|done].
    by rewrite Hstop, Hs.
  - by apply sniff_keeps_flag_up.
  - done.
Qed.

Lemma stop_handles_one_more_packet_witness :
  suspicious_responses (self (sniff scenario2 (stop_detection (fresh "Wi-Fi")).2).2) = []
  /\ cache (self (sniff scenario2 (stop_detection (fresh "Wi-Fi")).2).2) !! foo
     = Some (PyStr "1.1.1.1").
Proof.
  destruct (stop_handles_one_more_packet scenario2 (stop_detection (fresh "Wi-Fi")).2
              eq_refl) as (_ & H & _).
  rewrite (H _ _ eq_refl). split; by vm_compute.
Defined.

(** ** What a capture keeps *)

Lemma dns_detect_console (p : Packet) (s : Session) (n : string) (a : PyVal) :
  record_of p = Some (n, a) ->
  console (dns_detect p s).2
  = console s ++
    match cache (self s) !! n with
    | Some c => if decide (c ≠ a) then report_lines (n, c, a) else []
    | None => []
    end.
Proof.
  unfold record_of, dns_detect. destruct p as [qs rs]; simpl.
  destruct rs as [|rr rs']; [done|]. destruct qs as [|qr qs']; [done|].
  unfold_monad; simpl. destruct (bytes_decode (qname qr)) as [m|]; [|done].
  intros [= -> ->]. destruct (cache (self s) !! n) as [c|]; simpl.
  - destruct (decide (c ≠ a)); simpl; [by flatten_console|by rewrite app_nil_r].
  - by rewrite app_nil_r.
Qed.

(** X5. A capture only adds: whatever the packets, the log before is a
    prefix of the log after, and every cache entry before is an entry
    after. *)
Theorem capture_only_adds (ps : list Packet) (s : Session) :
  suspicious_responses (self s) `prefix_of` suspicious_responses (self (sniff ps s).2)
  /\ cache (self s) ⊆ cache (self (sniff ps s).2).
Proof.
  revert ps s.
  assert (forall s0 ps s,
            suspicious_responses (self s0) `prefix_of` suspicious_responses (self s)
            /\ cache (self s0) ⊆ cache (self s) ->
            suspicious_responses (self s0)
              `prefix_of` suspicious_responses (self (sniff ps s).2)
            /\ cache (self s0) ⊆ cache (self (sniff ps s).2)) as H.
  { intros s0. apply (sniff_preserves (fun s =>
      suspicious_responses (self s0) `prefix_of` suspicious_responses (self s)
      /\ cache (self s0) ⊆ cache (self s))).
    intros p s [Hlog Hcache]. destruct (record_of p) as [[m a]|] eqn:Hp.
    - pose proof (dns_detect_record p s m a Hp) as (_ & -> & ->). split.
      + etrans; [exact Hlog|]. by apply prefix_app_r.
      + destruct (cache (self s) !! m) eqn:Hm; [done|].
        etrans; [exact Hcache|]. by apply insert_subseteq.
    - by rewrite dns_detect_skipped. }
  intros ps s. by apply H.
Qed.

(** X6. In the session a capture leaves behind, whatever the packets were,
    every record of the log quotes the address the cache holds for its name,
    and its observed address differs from it. *)
Theorem logged_suspicions_are_divergences (iface : string) (ps : list Packet)
    (n : string) (cached observed : PyVal) :
  (n, cached, observed) ∈ suspicious_responses (self (captured iface ps)) ->
  cache (self (captured iface ps)) !! n = Some cached /\ cached ≠ observed.
Proof.
  intros Hlog. split; [by apply (captured_log_quotes_cache iface ps n cached observed)|].
  revert n cached observed Hlog. unfold captured.
  apply (sniff_preserves (fun s =>
    forall n c o, (n, c, o) ∈ suspicious_responses (self s) -> c ≠ o)).
  - intros p s Hs n c o. destruct (record_of p) as [[m a]|] eqn:Hp.
    + pose proof (dns_detect_record p s m a Hp) as (_ & _ & ->).
      rewrite elem_of_app. intros [Hold|Hnew]; [by apply (Hs n c o)|].
      destruct (cache (self s) !! m) as [c0|]; [|by apply elem_of_nil in Hnew].
      destruct (decide (c0 ≠ a)); [|by apply elem_of_nil in Hnew].
      apply list_elem_of_singleton in Hnew. congruence.
    + rewrite dns_detect_skipped by done. apply Hs.
  - intros n c o H. by apply elem_of_nil in H.
Qed.

Lemma logged_suspicions_are_divergences_witness :
  cache (self (captured "Wi-Fi" two_names)) !! bar = Some (PyStr "4.4.4.4")
  /\ PyStr "4.4.4.4" ≠ PyStr "5.5.5.5".
Proof.
  apply (logged_suspicions_are_divergences "Wi-Fi" two_names bar).
  vm_compute. apply list_elem_of_further, list_elem_of_here.
Defined.

(** X7. The log is not deduplicated: when the cache holds [cached] for a
    name, [k] arrivals of the same diverging record append [k] copies of
    the same suspicion and leave the cache alone. *)
Theorem repeated_divergence_logged_each_time (p : Packet) (n : string)
    (cached a : PyVal) (k : nat) (s : Session) :
  record_of p = Some (n, a) ->
  stop_detecting (self s) = false ->
  cache (self s) !! n = Some cached ->
  cached ≠ a ->
  suspicious_responses (self (sniff (replicate k p) s).2)
  = suspicious_responses (self s) ++ replicate k (n, cached, a)
  /\ cache (self (sniff (replicate k p) s).2) = cache (self s).
Proof.
  intros Hp Hs Hc Hne. revert s Hs Hc. induction k as [|k IH]; intros s Hs Hc.
  - simpl. by rewrite app_nil_r.
  - simpl replicate. rewrite sniff_cons.
    pose proof (dns_detect_record p s n a Hp) as (Hr & Hcache & Hlog).
    pose proof (dns_detect_stop p s) as Hstop.
    destruct (dns_detect p s) as [[[]|e] s']; simpl in *; [|done].
    rewrite Hc in Hcache, Hlog. rewrite decide_True in Hlog by done.
    rewrite Hstop, Hs.
    destruct (IH s') as [-> ->]; [congruence|by rewrite Hcache|].
    rewrite Hlog, Hcache. split; [|done]. by rewrite <- app_assoc.
Qed.

Lemma repeated_divergence_logged_each_time_witness :
  suspicious_responses
    (self (sniff (replicate 3 (response foo (PyStr "2.2.2.2")))
             (captured "Wi-Fi" [response foo (PyStr "1.1.1.1")])).2)
  = replicate 3 (foo, PyStr "1.1.1.1", PyStr "2.2.2.2").
Proof.
  apply (repeated_divergence_logged_each_time (response foo (PyStr "2.2.2.2")) foo
           (PyStr "1.1.1.1") (PyStr "2.2.2.2") 3
           (captured "Wi-Fi" [response foo (PyStr "1.1.1.1")]));
    [by vm_compute|by vm_compute|by vm_compute|discriminate].
Defined.

(** X8. During a capture the console is the log, printed: it holds the
    three lines of every logged suspicion, in log order, and nothing
    else. *)
Theorem console_mirrors_log (iface : string) (ps : list Packet) :
  console (captured iface ps)
  = concat (report_lines <$> suspicious_responses (self (captured iface ps))).
Proof.
  unfold captured. apply (sniff_preserves (fun s =>
    console s = concat (report_lines <$> suspicious_responses (self s)))); [|done].
  intros p s Hs. destruct (record_of p) as [[m a]|] eqn:Hp.
  - pose proof (dns_detect_record p s m a Hp) as (_ & _ & ->).
    rewrite (dns_detect_console p s m a Hp), fmap_app, concat_app, Hs. f_equal.
    destruct (cache (self s) !! m) as [c|]; [|done].
    destruct (decide (c ≠ a)); [|done]. simpl. by rewrite ?app_nil_r.
  - by rewrite dns_detect_skipped.
Qed.

(** X9. Names do not interfere: a record for one name leaves the cache
    entry of every other name and the suspicions logged for it as they
    were. *)
Theorem other_names_untouched (p : Packet) (m n : string) (a : PyVal) (s : Session) :
  record_of p = Some (m, a) ->
  m ≠ n ->
  cache (self (dns_detect p s).2) !! n = cache (self s) !! n
  /\ filter (fun r : Suspicion => r.1.1 = n) (suspicious_responses (self (dns_detect p s).2))
     = filter (fun r : Suspicion => r.1.1 = n) (suspicious_responses (self s)).
Proof.
  intros Hp Hne. pose proof (dns_detect_record p s m a Hp) as (_ & -> & ->). split.
  - destruct (cache (self s) !! m); [done|]. by rewrite lookup_insert_ne.
  - rewrite filter_app.
    destruct (cache (self s) !! m) as [c|]; [|by rewrite filter_nil, app_nil_r].
    destruct (decide (c ≠ a)); [|by rewrite filter_nil, app_nil_r].
    rewrite filter_cons_False by done. by rewrite filter_nil, app_nil_r.
Qed.

Lemma other_names_untouched_witness :
  cache (self (dns_detect (response bar (PyStr "7.7.7.7")) (captured "Wi-Fi" scenario2)).2)
    !! foo
  = cache (self (captured "Wi-Fi" scenario2)) !! foo.
Proof.
  apply (other_names_untouched (response bar (PyStr "7.7.7.7")) bar foo (PyStr "7.7.7.7")
           (captured "Wi-Fi" scenario2)); [by vm_compute|discriminate].
Defined.

(** ** The output of a trace and of a verification *)

(** X10. What a trace prints is the heading line followed by three reports,
    one per lookup and in the order of the code, each determined by the
    answer of its own lookup alone; neither the session nor the other two
    lookups have any influence on a report. *)
Theorem trace_is_three_separate_reports (w : World) (domain : string)
    (real_ip spoofed_ip : PyVal) (s : Session) :
  emitted (trace_actual_dns w domain real_ip spoofed_ip) s
  = Printed (TracingActualDNS domain) ::
    whois_report domain (whois w domain)
    ++ rdap_report RealIP real_ip (lookup_rdap w RealIP real_ip)
    ++ rdap_report SpoofedIP spoofed_ip (lookup_rdap w SpoofedIP spoofed_ip).
Proof. apply trace_actual_dns_emitted. Qed.

(** X11. When the registrar lookup succeeds but knows no name servers, the
    registrar line is printed, the join then raises [TypeError], which is
    reported as WHOIS information not retrievable, and no name-server line
    is printed. *)
Theorem registrar_printed_then_join_fails (w : World) (domain : string)
    (real_ip spoofed_ip : PyVal) (s : Session) (info : WhoisEntry) :
  whois w domain = Returned info ->
  name_servers info = None ->
  take 4 (emitted (trace_actual_dns w domain real_ip spoofed_ip) s)
  = [Printed (TracingActualDNS domain);
     Called (Whois domain);
     Printed (DomainRegistrar (registrar info));
     Printed (WhoisUnavailable TypeError)]
  /\ forall joined,
       Printed (NameServers joined)
         ∉ emitted (trace_actual_dns w domain real_ip spoofed_ip) s.
Proof.
  intros Hw Hns. rewrite trace_actual_dns_emitted. unfold whois_report, rdap_report.
  rewrite Hw, Hns. split; [done|]. intros joined H.
  destruct (lookup_rdap w RealIP real_ip) as [ir|er];
    destruct (lookup_rdap w SpoofedIP spoofed_ip) as [isp|es];
    simpl in H; repeat (apply elem_of_cons in H as [H|H]; [discriminate|]);
    by apply elem_of_nil in H.
Qed.

Lemma registrar_printed_then_join_fails_witness :
  take 4 (emitted (trace_actual_dns no_name_servers foo (PyStr "3.3.3.3") (PyStr "1.1.1.1"))
            (fresh "Wi-Fi"))
  = [Printed (TracingActualDNS foo);
     Called (Whois foo);
     Printed (DomainRegistrar (Some "Example Registrar"));
     Printed (WhoisUnavailable TypeError)].
Proof.
  exact (proj1 (registrar_printed_then_join_fails no_name_servers foo (PyStr "3.3.3.3")
                  (PyStr "1.1.1.1") (fresh "Wi-Fi")
                  {| registrar := Some "Example Registrar"; name_servers := None |}
                  eq_refl eq_refl)).
Defined.

(** X12. A cached value that is [bytes] (the data of a record that is not
    an address) never equals the text the resolver returns: when it is not
    empty and the lookup succeeds, the spoof is reported as confirmed, with
    the cached bytes as the spoofed address. *)
Theorem cached_bytes_always_confirmed (w : World) (domain : string) (s : Session)
    (b : list byte) (ip : string) :
  cache (self s) !! domain = Some (PyBytes b) ->
  b <> [] ->
  resolve_A w domain = Returned ip ->
  Printed (ConfirmedSpoofing domain) ∈ emitted (verify_dns w domain) s
  /\ Printed (SpoofedIPLine (PyBytes b)) ∈ emitted (verify_dns w domain) s
  /\ Called (Rdap (PyBytes b)) ∈ emitted (verify_dns w domain) s.
Proof.
  intros Hc Hb E.
  assert (truthy (PyBytes b) && bool_decide (PyStr ip ≠ PyBytes b) = true) as Ht.
  { destruct b; [done|]. rewrite bool_decide_eq_true_2; done. }
  destruct (verify_dns_confirmed w domain s ip (PyBytes b) E Hc Ht)
    as (_ & _ & evs & Hcons & Hcalls & _).
  apply emitted_app in Hcons. rewrite Hcons.
  split; [apply list_elem_of_further, list_elem_of_here|].
  split; [do 3 apply list_elem_of_further; apply list_elem_of_here|].
  do 5 apply list_elem_of_further.
  assert (Rdap (PyBytes b) ∈ calls evs) as Hin.
  { rewrite Hcalls. do 2 apply list_elem_of_further. apply list_elem_of_here. }
  unfold calls in Hin. apply list_elem_of_omap in Hin as (ev & Hev & Hc').
  destruct ev as [m|c]; [done|]. by injection Hc' as ->.
Qed.

Lemma cached_bytes_always_confirmed_witness :
  Printed (ConfirmedSpoofing foo)
    ∈ emitted (verify_dns (resolving_to "2.2.2.2") foo) (captured "Wi-Fi" alias_then_address).
Proof.
  apply (cached_bytes_always_confirmed (resolving_to "2.2.2.2") foo
           (captured "Wi-Fi" alias_then_address)
           (String.list_byte_of_string "cdn.example.") "2.2.2.2");
    [by vm_compute|discriminate|reflexivity].
Defined.

Lemma resolutions_calls (evs : list Event) :
  resolutions evs
  = omap (fun c => match c with Resolve d => Some d | _ => None end) (calls evs).
Proof.
  induction evs as [|[m|[d|d|ip]] evs IH]; simpl; [done|done|..]; by rewrite ?IH.
Qed.

Lemma verify_dns_console (w : World) (domain : string) (s : Session) :
  exists evs,
    console (verify_dns w domain s).2 = console s ++ Called (Resolve domain) :: evs
    /\ resolutions evs = [].
Proof.
  destruct (resolve_A w domain) as [ip|e] eqn:E.
  - destruct (cache (self s) !! domain) as [c|] eqn:Hc.
    + destruct (truthy c && bool_decide (PyStr ip ≠ c)) eqn:Ht.
      * destruct (verify_dns_confirmed w domain s ip c E Hc Ht)
          as (_ & _ & evs & -> & Hcalls & _).
        eexists. split; [reflexivity|]. simpl.
        change (resolutions evs = []). by rewrite resolutions_calls, Hcalls.
      * exists []. rewrite (verify_dns_unconfirmed w domain s ip E); [done|].
        by rewrite Hc.
    + exists []. rewrite (verify_dns_unconfirmed w domain s ip E); [done|].
      by rewrite Hc.
  - rewrite (verify_dns_failed w domain s e E). eexists. split; [reflexivity|done].
Qed.

(** X13. Every call of [verify_dns] asks the trusted resolver exactly once,
    before anything else, and for the given name; and what it returns
    depends on the resolver's answer alone, not on the detector: the address
    when the lookup succeeded, [None] when it raised. *)
Theorem verify_dns_resolves_once (w : World) (domain : string) (s : Session) :
  head (emitted (verify_dns w domain) s) = Some (Called (Resolve domain))
  /\ resolutions (emitted (verify_dns w domain) s) = [domain]
  /\ (verify_dns w domain s).1
     = match resolve_A w domain with
       | Returned ip => Returned (Some ip)
       | Raised _ => Returned None
       end.
Proof.
  destruct (verify_dns_console w domain s) as (evs & Hcons & Hres).
  apply emitted_app in Hcons. rewrite Hcons. simpl. rewrite Hres.
  split; [done|]. split; [done|]. by destruct (verify_dns_verdict w domain s).
Qed.

(** ** The verification phase, continued *)

(** X14. With an empty log the verification phase has nothing to run: the
    banner is printed, no task is ever queued, running or completed, and
    the pool never leaves the state it was dispatched in. *)
Theorem nothing_to_verify (worlds : nat -> World) (s : Session) (p : Pool) :
  suspicious_responses (self s) = [] ->
  rtc (pool_step worlds) (dispatch (print VerifyingBanner s).2) p ->
  p = {| queued := []; running := []; completed := [];
         session := {| self := self s;
                       console := console s ++ [Printed VerifyingBanner] |} |}
  /\ all_done p.
Proof.
  intros Hlog Hrun. unfold dispatch, submissions in Hrun. simpl in Hrun.
  rewrite Hlog in Hrun. simpl in Hrun.
  apply rtc_inv in Hrun as [<-|(p' & Hstep & _)]; [done|].
  inversion Hstep as [|t q r1 r2 c s' Hq Hp']. by destruct r1.
Qed.

Lemma nothing_to_verify_witness :
  verify_one_by_one (fun _ => resolving_to "3.3.3.3") (fresh "Wi-Fi")
  = {| queued := []; running := []; completed := [];
       session := {| self := init "Wi-Fi"; console := [Printed VerifyingBanner] |} |}.
Proof.
  destruct (verify_one_by_one_run (fun _ => resolving_to "3.3.3.3") (fresh "Wi-Fi"))
    as [Hrun _].
  exact (proj1 (nothing_to_verify _ (fresh "Wi-Fi") _ eq_refl Hrun)).
Defined.

Lemma pool_resolutions (worlds : nat -> World) (s0 : Session) (p : Pool) :
  rtc (pool_step worlds) (dispatch s0) p ->
  exists evs, console (session p) = console s0 ++ evs
              /\ resolutions evs ≡ₚ (completed p).*1.*2.
Proof.
  revert p. apply (rtc_ind_r (R := pool_step worlds)
    (fun p => exists evs, console (session p) = console s0 ++ evs
                          /\ resolutions evs ≡ₚ (completed p).*1.*2)).
  - exists []. by rewrite app_nil_r.
  - intros p1 p2 _ Hstep (evs & Hcons & Hres).
    destruct Hstep as [t q r c s Hfree|t q r1 r2 c s]; simpl in *; [by exists evs|].
    destruct (verify_dns_console (worlds t.1) t.2 s) as (new & Hnew & Hnone).
    exists (evs ++ Called (Resolve t.2) :: new). split.
    + by rewrite Hnew, Hcons, <- app_assoc.
    + assert (resolutions (evs ++ Called (Resolve t.2) :: new)
              = resolutions evs ++ [t.2]) as ->.
      { unfold resolutions. rewrite omap_app. f_equal.
        change (t.2 :: resolutions new = [t.2]). by rewrite Hnone. }
      rewrite !fmap_app. simpl. by rewrite Hres.
Qed.

Lemma futures_hold_verdicts (worlds : nat -> World) (c : list Future) :
  Forall (fun f : Future => f.2 = verdict (worlds f.1.1) f.1.2) c ->
  c = (fun t : Task => (t, verdict (worlds t.1) t.2)) <$> c.*1.
Proof.
  induction 1 as [|[t o] c Ht _ IH]; [done|]. simpl in Ht. subst o.
  rewrite !fmap_cons. simpl. by f_equal.
Qed.

(** X15. Whatever the schedule, when the verification phase returns the
    trusted resolver has been asked once for the name of every record of the
    log (no retry, no name skipped), every future holds the verdict of its
    own task, and the detector is the one the phase started with. *)
Theorem one_resolution_per_record (worlds : nat -> World) (s : Session) (p : Pool) :
  verify_suspicious_responses worlds s p ->
  resolutions (drop (length (console s)) (console (session p)))
    ≡ₚ (fun r : Suspicion => r.1.1) <$> suspicious_responses (self s)
  /\ completed p
     ≡ₚ (fun t : Task => (t, verdict (worlds t.1) t.2)) <$> submissions (self s)
  /\ self (session p) = self s.
Proof.
  intros [Hrun [Hq Hr]].
  destruct (verification_phase_invariant worlds s p Hrun) as (_ & Hperm & Hself & Hres).
  rewrite Hq, Hr in Hperm. simpl in Hperm.
  destruct (pool_resolutions worlds _ p Hrun) as (evs & Hcons & Hevs).
  split; [|split; [|done]].
  - rewrite Hcons. simpl. rewrite <- app_assoc, drop_app_length. simpl.
    change (resolutions evs ≡ₚ (fun r : Suspicion => r.1.1) <$> suspicious_responses (self s)).
    by rewrite Hevs, Hperm, submissions_names.
  - rewrite (futures_hold_verdicts worlds (completed p) Hres) at 1. by rewrite Hperm.
Qed.

Lemma one_resolution_per_record_witness :
  resolutions (drop (length (console (captured "Wi-Fi" two_names)))
                 (console (session (verify_one_by_one (fun _ => foo_missing)
                                      (captured "Wi-Fi" two_names)))))
    ≡ₚ [foo; bar].
Proof.
  exact (proj1 (one_resolution_per_record (fun _ => foo_missing)
                  (captured "Wi-Fi" two_names) _
                  (verify_one_by_one_run (fun _ => foo_missing)
                     (captured "Wi-Fi" two_names)))).
Defined.

(** ** Names as cache keys *)



(** ** Captures as a whole *)

(** X17. Packets without a resource record are transparent: while the stop
    flag is down, a capture gives the same outcome and the same session as
    the capture over the packets that do have one. *)
Theorem queries_are_transparent (ps : list Packet) (s : Session) :
  stop_detecting (self s) = false ->
  sniff ps s = sniff (filter (fun p => haslayer (dnsrr p)) ps) s.
Proof.
  revert s. induction ps as [|p ps IH]; intros s Hs; [done|].
  destruct (dnsrr p) as [|rr rs] eqn:Hrr.
  - rewrite filter_cons_False by (rewrite Hrr; simpl; tauto). rewrite sniff_cons.
    rewrite dns_detect_no_rr by done. rewrite Hs. by apply IH.
  - rewrite filter_cons_True by (rewrite Hrr; simpl; tauto). rewrite !sniff_cons.
    pose proof (dns_detect_stop p s) as Hstop.
    destruct (dns_detect p s) as [[[]|e] s']; simpl in *; [|done].
    rewrite Hstop, Hs. apply IH. congruence.
Qed.

Lemma queries_are_transparent_witness :
  sniff [query foo; response foo (PyStr "1.1.1.1"); query bar;
         response foo (PyStr "2.2.2.2")] (fresh "Wi-Fi")
  = sniff scenario2 (fresh "Wi-Fi").
Proof.
  exact (queries_are_transparent
           [query foo; response foo (PyStr "1.1.1.1"); query bar;
            response foo (PyStr "2.2.2.2")] (fresh "Wi-Fi") eq_refl).
Defined.

Lemma pool_without_tasks (worlds : nat -> World) (s : Session) (p : Pool) :
  suspicious_responses (self s) = [] ->
  rtc (pool_step worlds) (dispatch s) p ->
  p = {| queued := []; running := []; completed := []; session := s |}.
Proof.
  intros Hlog Hrun. unfold dispatch, submissions in Hrun. rewrite Hlog in Hrun.
  simpl in Hrun. apply rtc_inv in Hrun as [<-|(p' & Hstep & _)]; [done|].
  inversion Hstep as [|t q r1 r2 c s' Hq Hp']. by destruct r1.
Qed.

(** X18. When a new detector cannot open the capture, the verification
    phase that follows finds an empty log: it queues nothing and asks no
    service, and all the run prints is the starting line, the permission or
    error line, and the verification banner. *)
Theorem failed_startup_verifies_nothing (iface : string) (e : Exn)
    (worlds : nat -> World) (p : Pool) :
  verify_suspicious_responses worlds (start_detecting (Raised e) (fresh iface)).2 p ->
  completed p = []
  /\ self (session p) = init iface
  /\ console (session p)
     = [Printed (StartingDetection iface);
        Printed (match e with
                 | PermissionError => PermissionDenied
                 | _ => AnErrorOccurred e
                 end);
        Printed VerifyingBanner].
Proof.
  intros [Hrun _].
  assert ((start_detecting (Raised e) (fresh iface)).2
          = {| self := init iface;
               console := [Printed (StartingDetection iface);
                           Printed (match e with
                                    | PermissionError => PermissionDenied
                                    | _ => AnErrorOccurred e
                                    end)] |}) as Hstart.
  { unfold start_detecting. unfold_monad. simpl. by destruct e. }
  rewrite Hstart in Hrun. apply pool_without_tasks in Hrun; [|done]. by subst p.
Qed.

Lemma failed_startup_verifies_nothing_witness :
  console (session (verify_one_by_one (fun _ => resolving_to "3.3.3.3")
                      (start_detecting (Raised PermissionError) (fresh "Wi-Fi")).2))
  = [Printed (StartingDetection "Wi-Fi"); Printed PermissionDenied;
     Printed VerifyingBanner].
Proof.
  exact (proj2 (proj2 (failed_startup_verifies_nothing "Wi-Fi" PermissionError
                         (fun _ => resolving_to "3.3.3.3") _
                         (verify_one_by_one_run (fun _ => resolving_to "3.3.3.3")
                            (start_detecting (Raised PermissionError) (fresh "Wi-Fi")).2)))).
Defined.
